(** * Cuckoo analysis results processing engine

    A shallow embedding of [lib/cuckoo/core/processor.py] (class [Processor])
    together with the pieces of the Python runtime it leans on
    ([distutils.version.StrictVersion], [str.split], [list.sort],
    [dict.update], truthiness), and the properties of the engine that the
    specification states. *)

From Stdlib Require Import ZArith NArith Ascii String.
From stdpp Require Import base option list sorting strings gmap fin_maps.

Local Open Scope string_scope.

(** ** Python values *)

(** The values a processing module can hand back as its data. *)
#[local] Set Warnings "-register-all".
Inductive pyval : Type :=
| PyNone
| PyBool (b : bool)
| PyInt (z : Z)
| PyStr (s : string)
| PyList (l : list pyval)
| PyDict (d : list (string * pyval)).

(** Truth value testing, as done by [if x:] and [not x]. *)
Definition truthy (v : pyval) : bool :=
  match v with
  | PyNone => false
  | PyBool b => b
  | PyInt z => negb (z =? 0)%Z
  | PyStr s => negb (String.eqb s "")
  | PyList l => match l with [] => false | _ => true end
  | PyDict d => match d with [] => false | _ => true end
  end.

(** Truth value of a string attribute that may be [None]
    ([if current.minimum:]): [None] and the empty string are false. *)
Definition truthy_str (o : option string) : bool :=
  match o with
  | None => false
  | Some s => negb (String.eqb s "")
  end.

(** ** Exceptions *)

(** The exception classes the engine tells apart.  [NonException] stands for
    the classes that do not derive from [Exception] ([KeyboardInterrupt],
    [SystemExit], ...), which an [except Exception] clause lets through. *)
Inductive exn : Type :=
| CuckooProcessingError (msg : string)
| ValueError (msg : string)
| AttributeError (msg : string)
| OtherException (cls : string)
| NonException (cls : string).

Definition is_Exception (e : exn) : bool :=
  match e with
  | NonException _ => false
  | _ => true
  end.

Definition is_ValueError (e : exn) : bool :=
  match e with
  | ValueError _ => true
  | _ => false
  end.

Definition exn_str (e : exn) : string :=
  match e with
  | CuckooProcessingError m | ValueError m | AttributeError m => m
  | OtherException c | NonException c => c
  end.

(** A call either returns a value or raises. *)
Inductive outcome (A : Type) : Type :=
| Ret (a : A)
| Raise (e : exn).
Arguments Ret {A} a.
Arguments Raise {A} e.

(** ** [str.split("-")[0]] *)

(** The part of [s] before its first ['-'] (all of [s] when it has none). *)
Fixpoint split_dash_head (s : string) : string :=
  match s with
  | EmptyString => EmptyString
  | String c r =>
      if Ascii.eqb c "-" then EmptyString else String c (split_dash_head r)
  end.

(** ** [distutils.version.StrictVersion] *)

Definition is_digit (c : ascii) : bool :=
  (48 <=? N_of_ascii c)%N && (N_of_ascii c <=? 57)%N.

(** The longest prefix of digits, and what follows it. *)
Fixpoint span_digits (s : string) : string * string :=
  match s with
  | EmptyString => (EmptyString, EmptyString)
  | String c r =>
      if is_digit c
      then let (d, rest) := span_digits r in (String c d, rest)
      else (EmptyString, s)
  end.

(** [string.atoi] on a string of decimal digits. *)
Fixpoint atoi_acc (acc : N) (s : string) : N :=
  match s with
  | EmptyString => acc
  | String c r => atoi_acc (10 * acc + (N_of_ascii c - 48))%N r
  end.
Definition atoi : string -> N := atoi_acc 0%N.

(** [\d+] *)
Definition re_number (s : string) : option (N * string) :=
  match span_digits s with
  | (EmptyString, _) => None
  | (d, rest) => Some (atoi d, rest)
  end.

(** [\.] *)
Definition re_dot (s : string) : option string :=
  match s with
  | String c r => if Ascii.eqb c "." then Some r else None
  | EmptyString => None
  end.

(** [(\. (\d+))?] : the patch number when the group takes part. *)
Definition re_patch (s : string) : option N * string :=
  match re_dot s with
  | Some r =>
      match re_number r with
      | Some (p, rest) => (Some p, rest)
      | None => (None, s)
      end
  | None => (None, s)
  end.

(** [([ab](\d+))?] *)
Definition re_prerelease (s : string) : option (ascii * N) * string :=
  match s with
  | String c r =>
      if Ascii.eqb c "a" || Ascii.eqb c "b"
      then match re_number r with
           | Some (n, rest) => (Some (c, n), rest)
           | None => (None, s)
           end
      else (None, s)
  | EmptyString => (None, s)
  end.

(** [$] without [re.MULTILINE]: the end of the string, or just before a
    newline that ends the string. *)
Definition re_end (s : string) : bool :=
  match s with
  | EmptyString => true
  | String c EmptyString => Ascii.eqb c "010"
  | _ => false
  end.

(** What [StrictVersion.parse] stores: the [version] triple and the
    [prerelease] pair.  [None] when [version_re] does not match. *)
Definition version_re_match (vstring : string)
  : option ((N * N * N) * option (ascii * N)) :=
  match re_number vstring with
  | None => None
  | Some (major, s1) =>
      match re_dot s1 with
      | None => None
      | Some s2 =>
          match re_number s2 with
          | None => None
          | Some (minor, s3) =>
              let (patch, s4) := re_patch s3 in
              let (pre, s5) := re_prerelease s4 in
              if re_end s5
              then Some ((major, minor, default 0%N patch), pre)
              else None
          end
      end
  end.

(** An instance of [StrictVersion].  [Version.__init__] parses only when
    [vstring] is true, so the instance built from the empty string has
    neither a [version] nor a [prerelease] attribute. *)
Inductive StrictVersion : Type :=
| Unparsed
| Parsed (version : N * N * N) (prerelease : option (ascii * N)).

Definition StrictVersion_init (vstring : string) : outcome StrictVersion :=
  if String.eqb vstring "" then Ret Unparsed
  else match version_re_match vstring with
       | Some (v, p) => Ret (Parsed v p)
       | None => Raise (ValueError "invalid version number")
       end.

Definition cmp_triple (a b : N * N * N) : comparison :=
  let '(a1, a2, a3) := a in
  let '(b1, b2, b3) := b in
  match (a1 ?= b1)%N with
  | Eq => match (a2 ?= b2)%N with
          | Eq => (a3 ?= b3)%N
          | c => c
          end
  | c => c
  end.

Definition cmp_prerelease (a b : ascii * N) : comparison :=
  match (N_of_ascii (fst a) ?= N_of_ascii (fst b))%N with
  | Eq => (snd a ?= snd b)%N
  | c => c
  end.

(** [StrictVersion.__cmp__] on two instances. *)
Definition StrictVersion_cmp (self other : StrictVersion)
  : outcome comparison :=
  match self, other with
  | Parsed v p, Parsed v' p' =>
      match cmp_triple v v' with
      | Eq =>
          match p, p' with
          | None, None => Ret Eq
          | Some _, None => Ret Lt
          | None, Some _ => Ret Gt
          | Some a, Some b => Ret (cmp_prerelease a b)
          end
      | c => Ret c
      end
  | _, _ => Raise (AttributeError "version")
  end.

Definition is_Lt (c : comparison) : bool :=
  match c with Lt => true | _ => false end.
Definition is_Gt (c : comparison) : bool :=
  match c with Gt => true | _ => false end.

(** [StrictVersion(a) < StrictVersion(b)], operands built left to right. *)
Definition version_lt (a b : string) : outcome bool :=
  match StrictVersion_init a with
  | Raise e => Raise e
  | Ret va =>
      match StrictVersion_init b with
      | Raise e => Raise e
      | Ret vb =>
          match StrictVersion_cmp va vb with
          | Raise e => Raise e
          | Ret c => Ret (is_Lt c)
          end
      end
  end.

(** [StrictVersion(a) > StrictVersion(b)]. *)
Definition version_gt (a b : string) : outcome bool :=
  match StrictVersion_init a with
  | Raise e => Raise e
  | Ret va =>
      match StrictVersion_init b with
      | Raise e => Raise e
      | Ret vb =>
          match StrictVersion_cmp va vb with
          | Raise e => Raise e
          | Ret c => Ret (is_Gt c)
          end
      end
  end.

(** ** [list.sort(key=...)] *)

(** Python's sort is stable and compares keys with [<] only.  The model
    inserts each element, from the last to the first, in front of the first
    element whose key is not smaller than its own. *)
Section sort_by.
Context {A : Type} (key : A -> Z).

Fixpoint insert_by (x : A) (l : list A) : list A :=
    match l with
    | [] => [x]
    | y :: l' =>
        if (key y <? key x)%Z then y :: insert_by x l' else x :: y :: l'
    end.

Definition sort_by (l : list A) : list A := foldr insert_by [] l.

(** The order the keys induce on the elements. *)
Definition le_key (x y : A) : Prop := (key x <= key y)%Z.
End sort_by.

(** ** Plugins *)

(** Modelled from the spec: the object built by [Config] (module
    [lib.cuckoo.common.config], not part of the sources at hand); the
    Configuration Provider supplies an enabled flag and arbitrary typed
    parameters, kept here as named values. *)
Definition ConfigObj : Type := list (string * pyval).

(** A processing module class.  An instance is a piece of state of the
    class's own type; attribute reads are projections of that state and
    method calls transform it. *)
Record ProcModule : Type := {
  pm_state : Type;
  pm_class_name : string;                       (* __class__.__name__ *)
  pm_order : Z;                                 (* module.order *)
  pm_new : outcome pm_state;                    (* module() *)
  pm_set_path : string -> pm_state -> outcome pm_state;
  pm_conf_path : pm_state -> string;            (* current.conf_path *)
  pm_set_cfg : ConfigObj -> pm_state -> pm_state; (* current.cfg = ... *)
  pm_enabled : pm_state -> bool;                (* current.enabled *)
  pm_run : pm_state -> pm_state * outcome pyval; (* current.run() *)
  pm_key : pm_state -> string                   (* current.key *)
}.

(** A signature class.  The constructor receives the results through
    [LocalDict], which keeps the signature's writes local: the results are
    an input the signature reads. *)
Record Signature : Type := {
  sg_state : Type;
  sg_new : gmap string pyval -> outcome sg_state; (* signature(LocalDict(results)) *)
  sg_name : sg_state -> string;
  sg_enabled : sg_state -> bool;
  sg_minimum : sg_state -> option string;
  sg_maximum : sg_state -> option string;
  sg_run : sg_state -> sg_state * outcome pyval;  (* current.run() *)
  sg_description : sg_state -> string;
  sg_severity : sg_state -> Z;
  sg_references : sg_state -> list string;
  sg_data : sg_state -> pyval;
  sg_alert : sg_state -> bool
}.

(** The dictionary returned for a matched signature. *)
Record MatchRecord : Type := {
  name : string;
  description : string;
  severity : Z;
  references : list string;
  data : pyval;
  alert : bool
}.

(** What the results container holds under a key: the data of a processing
    module, or, under ["signatures"], the list of matches. *)
Inductive docval : Type :=
| Data (v : pyval)
| Matches (sigs : list MatchRecord).

(** What [list_plugins] returns for the two groups. *)
Record Plugins : Type := {
  processing : list ProcModule;
  signatures : list Signature
}.

Record Processor : Type := { analysis_path : string }.

(** ** Observable effects: the log, and the calls into plugin code *)

Inductive level : Type := DEBUG | WARNING | ERROR.

(** One constructor per logging call site of the source, carrying the
    values substituted into its format string. *)
Inductive message : Type :=
| MsgExecuted (cls path : string)
| MsgModuleError (cls err : string)
| MsgModuleFailed (cls : string)
| MsgRunning (name : string)
| MsgOlder (name minimum : string)
| MsgWrongMinor (name : string)
| MsgNewer (name maximum : string)
| MsgWrongMajor (name : string)
| MsgMatched (path name : string)
| MsgSignatureFailed (name : string).

(** [Log] is a record handed to the logger ([log.exception] logs at
    [ERROR]).  The other events mark the entry into plugin code: the
    instantiation of a processing module, the call of its [run], and the
    call of the [run] of the signature of that name. *)
Inductive event : Type :=
| Log (lvl : level) (msg : message)
| NewModule (module : ProcModule)
| RunModule (module : ProcModule)
| RunSignature (name : string).

(** Computations of the engine: the events emitted so far and how the
    computation ended. *)
Definition M (A : Type) : Type := (list event * outcome A)%type.

Definition ret {A} (a : A) : M A := ([], Ret a).
Definition emit (ev : event) : M unit := ([ev], Ret tt).
Definition lift {A} (o : outcome A) : M A := ([], o).

Definition bind {A B} (m : M A) (k : A -> M B) : M B :=
  match m with
  | (t, Ret a) => let (t', r) := k a in ((t ++ t')%list, r)
  | (t, Raise e) => (t, Raise e)
  end.

(** [try: m  except <catches>: h].  An exception for which [catches] is
    false goes on propagating. *)
Definition try_except {A} (m : M A) (catches : exn -> bool) (h : exn -> M A)
  : M A :=
  match m with
  | (t, Ret a) => (t, Ret a)
  | (t, Raise e) =>
      if catches e then let (t', r) := h e in ((t ++ t')%list, r) else (t, Raise e)
  end.

Declare Scope engine_scope.
Delimit Scope engine_scope with engine.
Notation "'let*' x ':=' m 'in' k" := (bind m (fun x => k))
  (at level 10, x name, m at level 100, k at level 200, only parsing)
  : engine_scope.
Local Open Scope engine_scope.

(** The processing modules instantiated along a trace, in order. *)
Definition new_modules (t : list event) : list ProcModule :=
  omap (fun ev => match ev with NewModule m => Some m | _ => None end) t.

(** The names of the signatures announced along a trace, in order. *)
Definition started_signatures (t : list event) : list string :=
  omap (fun ev => match ev with
                  | Log DEBUG (MsgRunning n) => Some n
                  | _ => None
                  end) t.

(** Whether the [run] of a signature was called along a trace. *)
Definition ran_signature (t : list event) : bool :=
  existsb (fun ev => match ev with RunSignature _ => true | _ => false end) t.

(** Truth value of a dictionary: it has an entry. *)
Definition dict_truthy {V} (d : gmap string V) : bool :=
  negb (bool_decide (d = ∅)).

(** [d.update(other)] *)
Definition dict_update {V} (d other : gmap string V) : gmap string V :=
  other ∪ d.

(** ** The engine *)

Section Engine.
  (** [CUCKOO_VERSION] and [Config] come from modules outside the sources
      at hand. *)
Variable CUCKOO_VERSION : string.
Variable Config : string -> outcome ConfigObj.

Definition _run_processing (self : Processor) (module : ProcModule)
    : M (option (gmap string pyval)) :=
    let cls := pm_class_name module in
    let* _ := emit (NewModule module) in
    let* current := lift (pm_new module) in
    let* current := lift (pm_set_path module (analysis_path self) current) in
    let* cfg := lift (Config (pm_conf_path module current)) in
    let current := pm_set_cfg module cfg current in
    if negb (pm_enabled module current) then ret None
    else
      let (current', ran) := pm_run module current in
      try_except
        (let* _ := emit (RunModule module) in
         let* data := lift ran in
         let* _ := emit (Log DEBUG (MsgExecuted cls (analysis_path self))) in
         ret (Some {[ pm_key module current' := data ]}))
        is_Exception
        (fun e =>
           match e with
           | CuckooProcessingError _ =>
               let* _ := emit (Log WARNING (MsgModuleError cls (exn_str e))) in
               ret None
           | _ =>
               let* _ := emit (Log ERROR (MsgModuleFailed cls)) in
               ret None
           end).

  (** The minimum version check; [true] when it ends the call with
      [return None]. *)
Definition minimum_gate (version name : string) (minimum : option string)
    : M bool :=
    match minimum with
    | Some m =>
        if truthy_str minimum then
          try_except
            (let* older := lift (version_lt version (split_dash_head m)) in
             if older then let* _ := emit (Log DEBUG (MsgOlder name m)) in ret true
             else ret false)
            is_ValueError
            (fun _ => let* _ := emit (Log DEBUG (MsgWrongMinor name)) in ret true)
        else ret false
    | None => ret false
    end.

  (** The maximum version check; [true] when it ends the call with
      [return None]. *)
Definition maximum_gate (version name : string) (maximum : option string)
    : M bool :=
    match maximum with
    | Some m =>
        if truthy_str maximum then
          try_except
            (let* newer := lift (version_gt version (split_dash_head m)) in
             if newer then let* _ := emit (Log DEBUG (MsgNewer name m)) in ret true
             else ret false)
            is_ValueError
            (fun _ => let* _ := emit (Log DEBUG (MsgWrongMajor name)) in ret true)
        else ret false
    | None => ret false
    end.

Definition matched (signature : Signature) (current : sg_state signature)
    : MatchRecord :=
    {| name := sg_name signature current;
       description := sg_description signature current;
       severity := sg_severity signature current;
       references := sg_references signature current;
       data := sg_data signature current;
       alert := sg_alert signature current |}.

  (** The last block of [_run_signature]: the call of [run] under
      [except Exception]. *)
Definition evaluate (self : Processor) (signature : Signature)
      (current : sg_state signature) : M (option MatchRecord) :=
    let (current', ran) := sg_run signature current in
    try_except
      (let* _ := emit (RunSignature (sg_name signature current)) in
       let* positive := lift ran in
       if truthy positive then
         let* _ := emit (Log DEBUG (MsgMatched (analysis_path self)
                            (sg_name signature current'))) in
         ret (Some (matched signature current'))
       else ret None)
      is_Exception
      (fun _ =>
         let* _ := emit (Log ERROR (MsgSignatureFailed (sg_name signature current'))) in
         ret None).

Definition _run_signature (self : Processor) (signature : Signature)
      (results : gmap string pyval) : M (option MatchRecord) :=
    let* current := lift (sg_new signature results) in
    let* _ := emit (Log DEBUG (MsgRunning (sg_name signature current))) in
    if negb (sg_enabled signature current) then ret None
    else
      let version := split_dash_head CUCKOO_VERSION in
      let* skip := minimum_gate version (sg_name signature current)
                (sg_minimum signature current) in
      if skip : bool then ret None
      else
        let* skip := maximum_gate version (sg_name signature current)
                  (sg_maximum signature current) in
        if skip : bool then ret None
        else evaluate self signature current.

  (** [for module in modules_list: ...] *)
Fixpoint run_modules (self : Processor) (modules_list : list ProcModule)
      (results : gmap string pyval) : M (gmap string pyval) :=
    match modules_list with
    | [] => ret results
    | module :: rest =>
        let* result := _run_processing self module in
        run_modules self rest
          (match result with
           | Some d => if dict_truthy d then dict_update results d else results
           | None => results
           end)
    end.

  (** [for signature in list_plugins(group="signatures"): ...]; a match is
      a dictionary of six entries, hence true. *)
Fixpoint run_signatures (self : Processor) (sigs_list : list Signature)
      (results : gmap string pyval) (sigs : list MatchRecord)
    : M (list MatchRecord) :=
    match sigs_list with
    | [] => ret sigs
    | signature :: rest =>
        let* m := _run_signature self signature results in
        run_signatures self rest results
          (match m with
           | Some r => (sigs ++ [r])%list
           | None => sigs
           end)
    end.

Definition run (self : Processor) (plugins : Plugins)
    : M (gmap string docval) :=
    let modules_list := sort_by pm_order (processing plugins) in
    let* results := run_modules self modules_list ∅ in
    let* sigs := run_signatures self (signatures plugins) results [] in
    let sigs := sort_by severity sigs in
    ret (<["signatures" := Matches sigs]> (Data <$> results)).

End Engine.

(** ** Vocabulary of the properties *)

(** The signature [s] with no minimum version declared. *)
Definition without_minimum (s : Signature) : Signature :=
  {| sg_state := sg_state s;
     sg_new := sg_new s;
     sg_name := sg_name s;
     sg_enabled := sg_enabled s;
     sg_minimum := fun _ => None;
     sg_maximum := sg_maximum s;
     sg_run := sg_run s;
     sg_description := sg_description s;
     sg_severity := sg_severity s;
     sg_references := sg_references s;
     sg_data := sg_data s;
     sg_alert := sg_alert s |}.

(** The minimum version check lets the running version through. *)
Definition minimum_passes (version : string) (minimum : option string)
  : bool :=
  match minimum with
  | Some m =>
      if truthy_str minimum then
        match version_lt version (split_dash_head m) with
        | Ret older => negb older
        | Raise _ => false
        end
      else true
  | None => true
  end.

(** The maximum version check lets the running version through. *)
Definition maximum_passes (version : string) (maximum : option string)
  : bool :=
  match maximum with
  | Some m =>
      if truthy_str maximum then
        match version_gt version (split_dash_head m) with
        | Ret newer => negb newer
        | Raise _ => false
        end
      else true
  | None => true
  end.

(** The match logic of an instance returns a positive result. *)
Definition positive (s : Signature) (st : sg_state s) : bool :=
  match snd (sg_run s st) with
  | Ret v => truthy v
  | Raise _ => false
  end.

(** A signature that is enabled, passes both version checks and whose match
    logic returns a positive result. *)
Definition counted (CUCKOO_VERSION : string) (results : gmap string pyval)
    (s : Signature) : bool :=
  match sg_new s results with
  | Ret st =>
      sg_enabled s st
      && minimum_passes (split_dash_head CUCKOO_VERSION) (sg_minimum s st)
      && maximum_passes (split_dash_head CUCKOO_VERSION) (sg_maximum s st)
      && positive s st
  | Raise _ => false
  end.

(** The match record a signature yields against [results], if any. *)
Definition match_of (CUCKOO_VERSION : string) (self : Processor)
    (results : gmap string pyval) (s : Signature) : option MatchRecord :=
  match snd (_run_signature CUCKOO_VERSION self s results) with
  | Ret (Some r) => Some r
  | _ => None
  end.

(** The module is enabled and succeeds: its runner returns the fragment
    [{k: v}]. *)
Definition produces (Config : string -> outcome ConfigObj) (self : Processor)
    (m : ProcModule) (k : string) (v : pyval) : Prop :=
  snd (_run_processing Config self m) = Ret (Some {[ k := v ]}).

Definition writes (Config : string -> outcome ConfigObj) (self : Processor)
    (m : ProcModule) (k : string) : Prop :=
  exists v, produces Config self m k v.

(** Instantiation, path binding and configuration loading of the module
    succeed, and its [run] raises nothing outside [Exception]. *)
Definition module_sets_up (Config : string -> outcome ConfigObj)
    (self : Processor) (m : ProcModule) : Prop :=
  exists st0 st1 cfg,
    pm_new m = Ret st0 /\
    pm_set_path m (analysis_path self) st0 = Ret st1 /\
    Config (pm_conf_path m st1) = Ret cfg /\
    forall e, snd (pm_run m (pm_set_cfg m cfg st1)) = Raise e ->
              is_Exception e = true.

(** A declared bound still has something in front of its first dash. *)
Definition bound_has_head (bound : option string) : Prop :=
  forall b, bound = Some b -> b <> "" -> split_dash_head b <> "".

(** Instantiation of the signature succeeds whatever the results, its
    bounds have a head, and its [run] raises nothing outside [Exception]. *)
Definition signature_sets_up (s : Signature) : Prop :=
  forall results, exists st,
    sg_new s results = Ret st /\
    bound_has_head (sg_minimum s st) /\
    bound_has_head (sg_maximum s st) /\
    forall e, snd (sg_run s st) = Raise e -> is_Exception e = true.

(** ** Sample plugins *)

(** A module without state: class name, order, key, and the outcomes of its
    instantiation and of its [run]. *)
Definition sample_module (cls : string) (ord : Z) (k : string)
    (new : outcome unit) (ran : outcome pyval) : ProcModule :=
  {| pm_state := unit;
     pm_class_name := cls;
     pm_order := ord;
     pm_new := new;
     pm_set_path := fun _ st => Ret st;
     pm_conf_path := fun _ => "analysis.conf";
     pm_set_cfg := fun _ st => st;
     pm_enabled := fun _ => true;
     pm_run := fun st => (st, ran);
     pm_key := fun _ => k |}.

(** A signature without state. *)
Definition sample_signature (nm : string) (new : outcome unit)
    (mn mx : option string) (sev : Z) (ran : outcome pyval) : Signature :=
  {| sg_state := unit;
     sg_new := fun _ => new;
     sg_name := fun _ => nm;
     sg_enabled := fun _ => true;
     sg_minimum := fun _ => mn;
     sg_maximum := fun _ => mx;
     sg_run := fun st => (st, ran);
     sg_description := fun _ => "sample";
     sg_severity := fun _ => sev;
     sg_references := fun _ => [];
     sg_data := fun _ => PyNone;
     sg_alert := fun _ => false |}.

Definition config_ok : string -> outcome ConfigObj := fun _ => Ret [].
Definition config_broken : string -> outcome ConfigObj :=
  fun _ => Raise (OtherException "IOError").

Definition sample_processor : Processor := {| analysis_path := "analysis" |}.

(** The modules and signatures of the end-to-end example. *)
Definition module_a : ProcModule :=
  sample_module "A" 2 "a" (Ret tt) (Ret (PyDict [("x", PyInt 1)])).
Definition module_b : ProcModule :=
  sample_module "B" 1 "b" (Ret tt) (Ret (PyDict [("y", PyInt 2)])).
Definition signature_s1 : Signature :=
  sample_signature "S1" (Ret tt) None None 5 (Ret (PyBool true)).
Definition signature_s2 : Signature :=
  sample_signature "S2" (Ret tt) None None 1 (Ret (PyBool true)).

(** Modules that fail in one way or another. *)
Definition module_malformed : ProcModule :=
  sample_module "Malformed" 2 "c" (Ret tt)
    (Raise (CuckooProcessingError "malformed input")).
Definition module_crashing : ProcModule :=
  sample_module "Crashing" 3 "d" (Ret tt) (Raise (OtherException "KeyError")).
Definition module_broken : ProcModule :=
  sample_module "Broken" 1 "k" (Raise (OtherException "IOError")) (Ret PyNone).
Definition module_interrupted : ProcModule :=
  sample_module "Interrupted" 1 "k" (Ret tt)
    (Raise (NonException "KeyboardInterrupt")).

(** Modules that write the same key. *)
Definition module_none : ProcModule :=
  sample_module "None" 1 "a" (Ret tt) (Ret PyNone).
Definition module_a2 : ProcModule :=
  sample_module "A2" 2 "a" (Ret tt) (Ret (PyInt 2)).
Definition module_a3 : ProcModule :=
  sample_module "A3" 3 "a" (Ret tt) (Ret (PyInt 3)).
Definition module_sigs1 : ProcModule :=
  sample_module "Sigs1" 1 "signatures" (Ret tt) (Ret (PyInt 1)).
Definition module_sigs2 : ProcModule :=
  sample_module "Sigs2" 2 "signatures" (Ret tt) (Ret (PyInt 2)).

(** More signatures. *)
Definition signature_s3 : Signature :=
  sample_signature "S3" (Ret tt) None None 5 (Ret (PyInt 7)).
Definition signature_negative : Signature :=
  sample_signature "Negative" (Ret tt) None None 3 (Ret (PyBool false)).
Definition signature_crashing : Signature :=
  sample_signature "Crashing" (Ret tt) None None 2
    (Raise (OtherException "KeyError")).
Definition signature_broken : Signature :=
  sample_signature "Broken" (Raise (OtherException "TypeError")) None None 2
    (Ret (PyBool true)).
Definition signature_min_2_0 : Signature :=
  sample_signature "Min20" (Ret tt) (Some "2.0") None 2 (Ret (PyBool true)).
Definition signature_beta : Signature :=
  sample_signature "Beta" (Ret tt) (Some "2.0-beta") (Some "3.0-rc1") 2
    (Ret (PyBool true)).
Definition signature_abc : Signature :=
  sample_signature "Abc" (Ret tt) (Some "abc") None 2 (Ret (PyBool true)).
Definition signature_empty_minimum : Signature :=
  sample_signature "Empty" (Ret tt) (Some "") None 2 (Ret (PyBool true)).
Definition signature_dash_minimum : Signature :=
  sample_signature "Dash" (Ret tt) (Some "-rc1") None 2 (Ret (PyBool true)).

Definition example_plugins : Plugins :=
  {| processing := [module_a; module_b];
     signatures := [signature_s1; signature_s2] |}.

Definition mixed_plugins : Plugins :=
  {| processing := [module_a; module_crashing; module_b; module_malformed];
     signatures := [signature_s1; signature_negative; signature_s2;
                    signature_crashing; signature_s3; signature_abc] |}.

(** ** Further vocabulary *)

(** The processing modules whose [run] was called along a trace, in
    order. *)
Definition called_modules (t : list event) : list ProcModule :=
  omap (fun ev => match ev with RunModule m => Some m | _ => None end) t.

(** The runner gets as far as the call of [run]: the instance is built,
    bound to the path, configured, and enabled. *)
Definition module_enabled (Config : string -> outcome ConfigObj)
    (self : Processor) (m : ProcModule) : bool :=
  match pm_new m with
  | Ret st0 =>
      match pm_set_path m (analysis_path self) st0 with
      | Ret st1 =>
          match Config (pm_conf_path m st1) with
          | Ret cfg => pm_enabled m (pm_set_cfg m cfg st1)
          | Raise _ => false
          end
      | Raise _ => false
      end
  | Raise _ => false
  end.

(** The name under which a signature is announced in the log when it is
    built against [results]. *)
Definition announced_name (results : gmap string pyval) (s : Signature)
  : string :=
  match sg_new s results with
  | Ret st => sg_name s st
  | Raise _ => ""
  end.

(** A module that is switched off, and one whose [run] raises [e]. *)
Definition module_disabled : ProcModule :=
  {| pm_state := unit;
     pm_class_name := "Disabled";
     pm_order := 1%Z;
     pm_new := Ret tt;
     pm_set_path := fun _ st => Ret st;
     pm_conf_path := fun _ => "analysis.conf";
     pm_set_cfg := fun _ st => st;
     pm_enabled := fun _ => false;
     pm_run := fun st => (st, Ret (PyInt 9));
     pm_key := fun _ => "disabled" |}.

(** A signature that is switched off and declares a minimum that does not
    parse. *)
Definition signature_disabled : Signature :=
  {| sg_state := unit;
     sg_new := fun _ => Ret tt;
     sg_name := fun _ => "Disabled";
     sg_enabled := fun _ => false;
     sg_minimum := fun _ => Some "abc";
     sg_maximum := fun _ => None;
     sg_run := fun st => (st, Ret (PyBool true));
     sg_description := fun _ => "sample";
     sg_severity := fun _ => 4%Z;
     sg_references := fun _ => [];
     sg_data := fun _ => PyNone;
     sg_alert := fun _ => false |}.

(** A signature that names itself and fills in its data while it runs. *)
Definition signature_stateful : Signature :=
  {| sg_state := string * pyval;
     sg_new := fun _ => Ret ("Stateful", PyNone);
     sg_name := fun st => fst st;
     sg_enabled := fun _ => true;
     sg_minimum := fun _ => None;
     sg_maximum := fun _ => Some "";
     sg_run := fun st => (("Renamed", PyList [PyStr "evidence"]), Ret (PyInt 1));
     sg_description := fun _ => "sample";
     sg_severity := fun _ => 2%Z;
     sg_references := fun _ => [];
     sg_data := fun st => snd st;
     sg_alert := fun _ => true |}.

Definition signature_max_2_0 : Signature :=
  sample_signature "Max20" (Ret tt) None (Some "2.0-final") 2
    (Ret (PyBool true)).
Definition signature_max_abc : Signature :=
  sample_signature "MaxAbc" (Ret tt) (Some "") (Some "abc-1") 2
    (Ret (PyBool true)).

Definition disabled_plugins : Plugins :=
  {| processing := [module_a; module_disabled; module_b; module_malformed];
     signatures := [signature_s1; signature_disabled; signature_s2] |}.

(** ** Vocabulary of the version checks *)

(** A declared bound, written as the part in front of its first dash and
    what may follow it. *)
Definition with_suffix (b : string) (suffix : option string) : string :=
  match suffix with
  | Some x => b ++ "-" ++ x
  | None => b
  end.

(** The string has no dash. *)
Fixpoint no_dash (s : string) : bool :=
  match s with
  | EmptyString => true
  | String c r => negb (Ascii.eqb c "-") && no_dash r
  end.

(** The running version is not lower than the bound, taken as it stands;
    no bound is no constraint, and a bound that is no strict version lets
    nothing through. *)
Definition at_least (running : StrictVersion) (bound : option string)
  : bool :=
  match bound with
  | None => true
  | Some b =>
      match StrictVersion_init b with
      | Ret lo =>
          match StrictVersion_cmp running lo with
          | Ret c => negb (is_Lt c)
          | Raise _ => false
          end
      | Raise _ => false
      end
  end.

(** The running version is not higher than the bound, taken as it
    stands. *)
Definition at_most (running : StrictVersion) (bound : option string)
  : bool :=
  match bound with
  | None => true
  | Some b =>
      match StrictVersion_init b with
      | Ret hi =>
          match StrictVersion_cmp running hi with
          | Ret c => negb (is_Gt c)
          | Raise _ => false
          end
      | Raise _ => false
      end
  end.

(** What the call of [run] of an instance comes to: the record of the
    instance as [run] left it for a true value, nothing for a false value
    or an exception deriving from [Exception], and the exception itself
    otherwise. *)
Definition run_outcome (s : Signature) (st : sg_state s)
  : outcome (option MatchRecord) :=
  match sg_run s st with
  | (st', Ret v) => Ret (if truthy v then Some (matched s st') else None)
  | (_, Raise e) => if is_Exception e then Ret None else Raise e
  end.

(** What the runner logs when the [run] of a module of class [cls] raises
    [e]. *)
Definition module_failure_record (cls : string) (e : exn) : event :=
  match e with
  | CuckooProcessingError msg => Log WARNING (MsgModuleError cls msg)
  | _ => Log ERROR (MsgModuleFailed cls)
  end.

(** A module that cannot be bound to the analysis path. *)
Definition module_unbound : ProcModule :=
  {| pm_state := unit;
     pm_class_name := "Unbound";
     pm_order := 1%Z;
     pm_new := Ret tt;
     pm_set_path := fun _ _ => Raise (OtherException "OSError");
     pm_conf_path := fun _ => "analysis.conf";
     pm_set_cfg := fun _ st => st;
     pm_enabled := fun _ => true;
     pm_run := fun st => (st, Ret PyNone);
     pm_key := fun _ => "unbound" |}.

Definition signature_interrupted : Signature :=
  sample_signature "Interrupted" (Ret tt) None None 2
    (Raise (NonException "SystemExit")).
Definition signature_min_beta : Signature :=
  sample_signature "MinBeta" (Ret tt) (Some "2.0-beta") None 2
    (Ret (PyBool true)).
Definition signature_min_alpha : Signature :=
  sample_signature "MinAlpha" (Ret tt) (Some "2.0-alpha-2") None 2
    (Ret (PyBool true)).
Definition signature_max_plain : Signature :=
  sample_signature "MaxPlain" (Ret tt) None (Some "2.0") 2
    (Ret (PyBool true)).

(** * Properties *)

(** ** The sort *)

Section sort_by_facts.
Context {A : Type} (key : A -> Z).



Lemma insert_by_perm (x : A) (l : list A) : insert_by key x l ≡ₚ x :: l.
Proof.
  induction l as [|y l IH]; simpl; [done|].
  destruct (key y <? key x)%Z; [|done].
  rewrite IH. apply Permutation_swap.
Qed.

Lemma sort_by_perm (l : list A) : sort_by key l ≡ₚ l.
Proof.
  induction l as [|x l IH]; simpl; [done|].
  by rewrite insert_by_perm, IH.
Qed.

Lemma insert_by_sorted (x : A) (l : list A) :
  StronglySorted (le_key key) l -> StronglySorted (le_key key) (insert_by key x l).
Proof.
  induction 1 as [|y l Hl IH Hy]; simpl.
  - repeat constructor.
  - destruct (key y <? key x)%Z eqn:E.
    + apply Z.ltb_lt in E. constructor; [done|].
      rewrite insert_by_perm. constructor; [unfold le_key; lia | done].
    + apply Z.ltb_ge in E. constructor; [by constructor|].
      constructor; [done|].
      eapply Forall_impl; [exact Hy|]. unfold le_key. intros; lia.
Qed.

Lemma sort_by_sorted (l : list A) : StronglySorted (le_key key) (sort_by key l).
Proof.
  induction l as [|x l IH]; simpl; [constructor|].
  by apply insert_by_sorted.
Qed.

Lemma insert_by_filter (x : A) (l : list A) (k : Z) :
  filter (λ y, key y = k) (insert_by key x l)
  = filter (λ y, key y = k) (x :: l).
Proof.
  induction l as [|y l IH]; simpl; [done|].
  destruct (key y <? key x)%Z eqn:E; [|done].
  apply Z.ltb_lt in E.
  rewrite (filter_cons _ y), IH, !(filter_cons _ x), (filter_cons _ y).
  repeat case_decide; try done; lia.
Qed.

Lemma sort_by_stable (l : list A) (k : Z) :
  filter (λ y, key y = k) (sort_by key l) = filter (λ y, key y = k) l.
Proof.
  induction l as [|x l IH]; simpl; [done|].
  by rewrite insert_by_filter, !filter_cons, IH.
Qed.

Lemma sort_by_length (l : list A) : length (sort_by key l) = length l.
Proof. by rewrite sort_by_perm. Qed.



End sort_by_facts.

(** ** Computations *)

Lemma bind_Ret {A B} (t : list event) (a : A) (k : A -> M B) :
  bind (t, Ret a) k = ((t ++ fst (k a))%list, snd (k a)).
Proof. unfold bind. by destruct (k a). Qed.


Lemma bind_Ret_inv {A B} (m : M A) (k : A -> M B) (b : B) :
  snd (bind m k) = Ret b ->
  exists a, snd m = Ret a /\ snd (k a) = Ret b /\
            fst (bind m k) = (fst m ++ fst (k a))%list.
Proof.
  destruct m as [t [a|e]]; [|done].
  rewrite bind_Ret. simpl. eauto.
Qed.

Lemma new_modules_app (t1 t2 : list event) :
  new_modules (t1 ++ t2) = (new_modules t1 ++ new_modules t2)%list.
Proof. apply omap_app. Qed.

Lemma started_signatures_app (t1 t2 : list event) :
  started_signatures (t1 ++ t2)
  = (started_signatures t1 ++ started_signatures t2)%list.
Proof. apply omap_app. Qed.

(** ** The engine *)

Section EngineFacts.
Variable CUCKOO_VERSION : string.
Variable Config : string -> outcome ConfigObj.

(** Unfolds a runner down to its case analysis. *)
Ltac unfold_runner :=
  unfold _run_processing, _run_signature, evaluate, minimum_gate,
    maximum_gate, try_except, bind, lift, emit, ret in *;
  simpl in *.

(** *** The Processing Runner *)

Lemma run_processing_new_modules self m :
  new_modules (fst (_run_processing Config self m)) = [m].
Proof.
  unfold_runner.
  repeat (case_match; simpl in *; simplify_eq; try done).
Qed.

Lemma run_processing_started self m :
  started_signatures (fst (_run_processing Config self m)) = [].
Proof.
  unfold_runner.
  repeat (case_match; simpl in *; simplify_eq; try done).
Qed.

(** Every fragment the runner returns has exactly one key. *)
Lemma run_processing_fragment self m d :
  snd (_run_processing Config self m) = Ret (Some d) ->
  exists k v, d = {[ k := v ]}.
Proof.
  unfold_runner.
  repeat (case_match; simpl in *; simplify_eq; try done);
    intros; simplify_eq; eauto.
Qed.

Lemma run_processing_sets_up self m :
  module_sets_up Config self m ->
  exists r, snd (_run_processing Config self m) = Ret r.
Proof.
  intros (st0 & st1 & cfg & Hnew & Hpath & Hcfg & Hrun).
  unfold_runner. rewrite Hnew. simpl. rewrite Hpath. simpl.
  rewrite Hcfg. simpl.
  destruct (pm_enabled m _); simpl; [|eauto].
  destruct (pm_run m _) as [st2 [v|e]] eqn:E; simpl; [eauto|].
  rewrite (Hrun e) by done.
  destruct e; simpl; eauto.
Qed.


(** *** The loop over the processing modules *)

Lemma run_modules_cons self m rest results :
  run_modules Config self (m :: rest) results
  = bind (_run_processing Config self m)
      (fun result =>
         run_modules Config self rest
           (match result with
            | Some d =>
                if dict_truthy d then dict_update results d else results
            | None => results
            end)).
Proof. done. Qed.

Lemma run_modules_skip self m rest results :
  snd (_run_processing Config self m) = Ret None ->
  run_modules Config self (m :: rest) results
  = ((fst (_run_processing Config self m)
      ++ fst (run_modules Config self rest results))%list,
     snd (run_modules Config self rest results)).
Proof.
  intros H. rewrite run_modules_cons.
  destruct (_run_processing Config self m) as [t o]. simpl in H. subst o.
  by rewrite bind_Ret.
Qed.

Lemma run_modules_merge self m rest results k v :
  snd (_run_processing Config self m) = Ret (Some {[ k := v ]}) ->
  run_modules Config self (m :: rest) results
  = ((fst (_run_processing Config self m)
      ++ fst (run_modules Config self rest (<[k:=v]> results)))%list,
     snd (run_modules Config self rest (<[k:=v]> results))).
Proof.
  intros H. rewrite run_modules_cons.
  destruct (_run_processing Config self m) as [t o]. simpl in H. subst o.
  rewrite bind_Ret. unfold dict_truthy, dict_update.
  rewrite bool_decide_eq_false_2 by apply map_non_empty_singleton.
  simpl. by rewrite <- insert_union_singleton_l.
Qed.


Lemma run_modules_new_modules self l results results' :
  snd (run_modules Config self l results) = Ret results' ->
  new_modules (fst (run_modules Config self l results)) = l.
Proof.
  revert results. induction l as [|m rest IH]; intros results.
  - done.
  - rewrite run_modules_cons.
    pose proof (run_processing_new_modules self m) as Hm.
    destruct (_run_processing Config self m) as [t [r|e]]; simpl in Hm.
    + rewrite bind_Ret. simpl. intros H.
      rewrite new_modules_app, Hm. simpl. f_equal. by eapply IH.
    + done.
Qed.

Lemma run_modules_started self l results :
  started_signatures (fst (run_modules Config self l results)) = [].
Proof.
  revert results. induction l as [|m rest IH]; intros results.
  - done.
  - rewrite run_modules_cons.
    pose proof (run_processing_started self m) as Hm.
    destruct (_run_processing Config self m) as [t [r|e]]; simpl in Hm.
    + rewrite bind_Ret. simpl. by rewrite started_signatures_app, Hm, IH.
    + done.
Qed.

Lemma run_modules_app_inv self l1 l2 results results' :
  snd (run_modules Config self (l1 ++ l2) results) = Ret results' ->
  exists mid,
    snd (run_modules Config self l1 results) = Ret mid /\
    snd (run_modules Config self l2 mid) = Ret results'.
Proof.
  revert results. induction l1 as [|m rest IH]; intros results.
  - simpl. eauto.
  - rewrite <- app_comm_cons, !run_modules_cons.
    destruct (_run_processing Config self m) as [t [r|e]]; [|done].
    rewrite !bind_Ret. simpl. apply IH.
Qed.

Lemma run_modules_no_writer self l results results' k :
  Forall (fun m => ~ writes Config self m k) l ->
  snd (run_modules Config self l results) = Ret results' ->
  results' !! k = results !! k.
Proof.
  intros Hl. revert results.
  induction Hl as [|m rest Hm _ IH]; intros results.
  - by intros [= ->].
  - rewrite run_modules_cons.
    pose proof (run_processing_fragment self m) as Hfrag.
    destruct (_run_processing Config self m) as [t [r|e]] eqn:E; [|done].
    rewrite bind_Ret. simpl. intros H. apply IH in H. rewrite H.
    destruct r as [d|]; [|done].
    destruct (Hfrag d eq_refl) as (k' & v & ->).
    unfold dict_truthy, dict_update.
    rewrite bool_decide_eq_false_2 by apply map_non_empty_singleton.
    simpl. rewrite <- insert_union_singleton_l.
    apply lookup_insert_ne. intros ->. apply Hm. exists v.
    unfold produces. by rewrite E.
Qed.

Lemma run_modules_last_writer self l1 m l3 results results' k v :
  snd (run_modules Config self (l1 ++ m :: l3) results) = Ret results' ->
  produces Config self m k v ->
  Forall (fun m' => ~ writes Config self m' k) l3 ->
  results' !! k = Some v.
Proof.
  intros H Hm Hl3.
  apply run_modules_app_inv in H as (mid & _ & H).
  rewrite (run_modules_merge _ _ _ _ k v) in H by done. simpl in H.
  rewrite (run_modules_no_writer _ _ _ _ _ Hl3 H).
  apply lookup_insert_eq.
Qed.


(** *** Version checks *)

Lemma StrictVersion_init_nonempty (vstring : string) :
  vstring <> "" ->
  StrictVersion_init vstring
  = match version_re_match vstring with
    | Some (v, p) => Ret (Parsed v p)
    | None => Raise (ValueError "invalid version number")
    end.
Proof.
  intros H. unfold StrictVersion_init.
  destruct (String.eqb_spec vstring ""); [done|done].
Qed.

(** With something to parse on both sides, the comparison returns or
    raises [ValueError]. *)
Lemma version_lt_safe (a b : string) :
  a <> "" -> b <> "" ->
  (exists r, version_lt a b = Ret r)
  \/ version_lt a b = Raise (ValueError "invalid version number").
Proof.
  intros Ha Hb. unfold version_lt.
  rewrite !StrictVersion_init_nonempty by done.
  destruct (version_re_match a) as [[v p]|]; [|by right].
  destruct (version_re_match b) as [[v' p']|]; [|by right].
  left. simpl. repeat case_match; simplify_eq; eauto.
Qed.

Lemma version_gt_safe (a b : string) :
  a <> "" -> b <> "" ->
  (exists r, version_gt a b = Ret r)
  \/ version_gt a b = Raise (ValueError "invalid version number").
Proof.
  intros Ha Hb. unfold version_gt.
  rewrite !StrictVersion_init_nonempty by done.
  destruct (version_re_match a) as [[v p]|]; [|by right].
  destruct (version_re_match b) as [[v' p']|]; [|by right].
  left. simpl. repeat case_match; simplify_eq; eauto.
Qed.

Lemma truthy_str_Some (b : string) : truthy_str (Some b) = true -> b <> "".
Proof.
  simpl. intros H ->. done.
Qed.

Lemma minimum_gate_safe version name minimum :
  version <> "" -> bound_has_head minimum ->
  exists skip, snd (minimum_gate version name minimum) = Ret skip.
Proof.
  intros Hv Hb. unfold minimum_gate.
  destruct minimum as [m|]; [|by eexists].
  destruct (truthy_str (Some m)) eqn:Ht; [|by eexists].
  apply truthy_str_Some in Ht.
  destruct (version_lt_safe version (split_dash_head m)) as [[r Hr]| Hr];
    [done|by apply Hb|..]; rewrite Hr.
  - destruct r; by eexists.
  - by eexists.
Qed.

Lemma maximum_gate_safe version name maximum :
  version <> "" -> bound_has_head maximum ->
  exists skip, snd (maximum_gate version name maximum) = Ret skip.
Proof.
  intros Hv Hb. unfold maximum_gate.
  destruct maximum as [m|]; [|by eexists].
  destruct (truthy_str (Some m)) eqn:Ht; [|by eexists].
  apply truthy_str_Some in Ht.
  destruct (version_gt_safe version (split_dash_head m)) as [[r Hr]| Hr];
    [done|by apply Hb|..]; rewrite Hr.
  - destruct r; by eexists.
  - by eexists.
Qed.

Lemma minimum_gate_passes version name minimum skip :
  snd (minimum_gate version name minimum) = Ret skip ->
  skip = negb (minimum_passes version minimum).
Proof.
  unfold minimum_gate, minimum_passes, try_except, bind, lift, emit, ret.
  repeat (case_match; simpl in *; simplify_eq; try done);
    intros; simpl in *; simplify_eq; done.
Qed.

Lemma maximum_gate_passes version name maximum skip :
  snd (maximum_gate version name maximum) = Ret skip ->
  skip = negb (maximum_passes version maximum).
Proof.
  unfold maximum_gate, maximum_passes, try_except, bind, lift, emit, ret.
  repeat (case_match; simpl in *; simplify_eq; try done);
    intros; simpl in *; simplify_eq; done.
Qed.

(** The version checks call no plugin code and announce no signature. *)
Lemma minimum_gate_trace version name minimum :
  let t := fst (minimum_gate version name minimum) in
  new_modules t = [] /\ started_signatures t = [] /\ ran_signature t = false.
Proof.
  unfold minimum_gate, try_except, bind, lift, emit, ret.
  repeat (case_match; simpl in *; simplify_eq; try done).
Qed.

Lemma maximum_gate_trace version name maximum :
  let t := fst (maximum_gate version name maximum) in
  new_modules t = [] /\ started_signatures t = [] /\ ran_signature t = false.
Proof.
  unfold maximum_gate, try_except, bind, lift, emit, ret.
  repeat (case_match; simpl in *; simplify_eq; try done).
Qed.


(** *** The Signature Runner *)

Lemma run_signature_new_modules self s results :
  new_modules (fst (_run_signature CUCKOO_VERSION self s results)) = [].
Proof.
  unfold_runner.
  repeat (case_match; simpl in *; simplify_eq; try done).
Qed.

Lemma run_signature_started self s results st :
  sg_new s results = Ret st ->
  started_signatures (fst (_run_signature CUCKOO_VERSION self s results))
  = [sg_name s st].
Proof.
  intros Hnew. unfold_runner. rewrite Hnew.
  repeat (case_match; simpl in *; simplify_eq; try done).
Qed.

Lemma evaluate_positive self s st r :
  snd (evaluate self s st) = Ret r ->
  positive s st = bool_decide (is_Some r).
Proof.
  unfold positive. unfold_runner.
  destruct (sg_run s st) as [st' [v|e]]; simpl.
  - destruct (truthy v); simpl; by intros [= <-].
  - destruct (is_Exception e); simpl; [by intros [= <-]|done].
Qed.

(** The runner, once the instance is built. *)
Lemma run_signature_instance self s results st :
  sg_new s results = Ret st ->
  _run_signature CUCKOO_VERSION self s results
  = bind (emit (Log DEBUG (MsgRunning (sg_name s st))))
      (fun _ =>
         if negb (sg_enabled s st) then ret None
         else
           bind (minimum_gate (split_dash_head CUCKOO_VERSION)
                   (sg_name s st) (sg_minimum s st))
             (fun skip : bool =>
                if skip then ret None
                else
                  bind (maximum_gate (split_dash_head CUCKOO_VERSION)
                          (sg_name s st) (sg_maximum s st))
                    (fun skip : bool =>
                       if skip then ret None else evaluate self s st))).
Proof.
  intros Hnew. unfold _run_signature. rewrite Hnew. unfold lift.
  rewrite bind_Ret. simpl. symmetry. apply surjective_pairing.
Qed.

(** When the runner returns, it returns a match exactly for the signatures
    that are enabled, pass both version checks and match. *)
Lemma run_signature_counted self s results r :
  snd (_run_signature CUCKOO_VERSION self s results) = Ret r ->
  counted CUCKOO_VERSION results s = bool_decide (is_Some r).
Proof.
  unfold counted.
  destruct (sg_new s results) as [st|e] eqn:Hnew;
    [|by unfold _run_signature; rewrite Hnew].
  rewrite (run_signature_instance _ _ _ _ Hnew).
  unfold emit. rewrite bind_Ret. simpl.
  destruct (sg_enabled s st); simpl; [|by intros [= <-]].
  pose proof (minimum_gate_passes (split_dash_head CUCKOO_VERSION)
                (sg_name s st) (sg_minimum s st)) as Hmin.
  destruct (minimum_gate _ _ _) as [t [skip|e]]; [|done].
  rewrite bind_Ret. rewrite (Hmin skip eq_refl).
  destruct (minimum_passes _ _); simpl; [|by intros [= <-]].
  pose proof (maximum_gate_passes (split_dash_head CUCKOO_VERSION)
                (sg_name s st) (sg_maximum s st)) as Hmax.
  destruct (maximum_gate _ _ _) as [t' [skip'|e]]; [|done].
  rewrite bind_Ret. rewrite (Hmax skip' eq_refl).
  destruct (maximum_passes _ _); simpl; [|by intros [= <-]].
  apply evaluate_positive.
Qed.

Lemma evaluate_returns self s st :
  (forall e, snd (sg_run s st) = Raise e -> is_Exception e = true) ->
  exists r, snd (evaluate self s st) = Ret r.
Proof.
  intros Hrun. unfold_runner.
  destruct (sg_run s st) as [st' [v|e]]; simpl in *.
  - destruct (truthy v); simpl; eauto.
  - rewrite (Hrun e) by done. simpl. eauto.
Qed.

Lemma run_signature_sets_up self s results :
  split_dash_head CUCKOO_VERSION <> "" ->
  signature_sets_up s ->
  exists r, snd (_run_signature CUCKOO_VERSION self s results) = Ret r.
Proof.
  intros Hv Hs. destruct (Hs results) as (st & Hnew & Hmin & Hmax & Hrun).
  rewrite (run_signature_instance _ _ _ _ Hnew).
  unfold emit. rewrite bind_Ret. simpl.
  destruct (sg_enabled s st); simpl; [|eauto].
  destruct (minimum_gate_safe (split_dash_head CUCKOO_VERSION)
              (sg_name s st) (sg_minimum s st) Hv Hmin) as [skip Hskip].
  destruct (minimum_gate _ _ _) as [t o]. simpl in Hskip. subst o.
  rewrite bind_Ret. destruct skip; simpl; [eauto|].
  destruct (maximum_gate_safe (split_dash_head CUCKOO_VERSION)
              (sg_name s st) (sg_maximum s st) Hv Hmax) as [skip Hskip].
  destruct (maximum_gate _ _ _) as [t' o]. simpl in Hskip. subst o.
  rewrite bind_Ret. destruct skip; simpl; [eauto|].
  by apply evaluate_returns.
Qed.

(** *** The loop over the signatures *)

Lemma run_signatures_cons self s rest results sigs :
  run_signatures CUCKOO_VERSION self (s :: rest) results sigs
  = bind (_run_signature CUCKOO_VERSION self s results)
      (fun m =>
         run_signatures CUCKOO_VERSION self rest results
           (match m with
            | Some r => (sigs ++ [r])%list
            | None => sigs
            end)).
Proof. done. Qed.

Lemma run_signatures_new_modules self l results sigs :
  new_modules (fst (run_signatures CUCKOO_VERSION self l results sigs)) = [].
Proof.
  revert sigs. induction l as [|s rest IH]; intros sigs; [done|].
  rewrite run_signatures_cons.
  pose proof (run_signature_new_modules self s results) as Hs.
  destruct (_run_signature _ _ _ _) as [t [r|e]]; simpl in Hs; [|done].
  rewrite bind_Ret. simpl. by rewrite new_modules_app, Hs, IH.
Qed.

(** The matches come out in the order in which the signatures are met. *)
Lemma run_signatures_matches self l results sigs sigs' :
  snd (run_signatures CUCKOO_VERSION self l results sigs) = Ret sigs' ->
  sigs' = (sigs ++ omap (match_of CUCKOO_VERSION self results) l)%list.
Proof.
  revert sigs. induction l as [|s rest IH]; intros sigs.
  - simpl. intros [= ->]. by rewrite app_nil_r.
  - rewrite run_signatures_cons. simpl. unfold match_of at 1.
    destruct (_run_signature _ _ _ _) as [t [r|e]]; [|done].
    rewrite bind_Ret. simpl. intros H. apply IH in H. subst sigs'.
    destruct r; by rewrite <- ?app_assoc.
Qed.

Lemma run_signatures_count self l results sigs sigs' :
  snd (run_signatures CUCKOO_VERSION self l results sigs) = Ret sigs' ->
  length sigs'
  = length sigs + length (List.filter (counted CUCKOO_VERSION results) l).
Proof.
  revert sigs. induction l as [|s rest IH]; intros sigs.
  - simpl. intros [= ->]. lia.
  - rewrite run_signatures_cons. simpl.
    pose proof (run_signature_counted self s results) as Hc.
    destruct (_run_signature _ _ _ _) as [t [r|e]]; [|done].
    rewrite bind_Ret. simpl. intros H. apply IH in H. rewrite H.
    rewrite (Hc r eq_refl).
    destruct r; simpl; rewrite ?length_app; simpl; lia.
Qed.

Lemma run_signatures_sets_up self l results sigs :
  split_dash_head CUCKOO_VERSION <> "" ->
  Forall signature_sets_up l ->
  exists sigs',
    snd (run_signatures CUCKOO_VERSION self l results sigs) = Ret sigs' /\
    length (started_signatures
              (fst (run_signatures CUCKOO_VERSION self l results sigs)))
    = length l.
Proof.
  intros Hv Hl. revert sigs.
  induction Hl as [|s rest Hs _ IH]; intros sigs; [by eexists|].
  rewrite run_signatures_cons.
  destruct (run_signature_sets_up self s results Hv Hs) as [r Hr].
  destruct (Hs results) as (st & Hnew & _).
  pose proof (run_signature_started self s results st Hnew) as Hst.
  destruct (_run_signature _ _ _ _) as [t o]. simpl in Hr, Hst. subst o.
  rewrite bind_Ret. simpl.
  destruct (IH (match r with Some r0 => (sigs ++ [r0])%list | None => sigs end))
    as (sigs' & Hsigs & Hlen).
  exists sigs'. split; [done|].
  rewrite started_signatures_app, length_app, Hst, Hlen. done.
Qed.

Lemma run_modules_sets_up self l results :
  Forall (module_sets_up Config self) l ->
  exists results', snd (run_modules Config self l results) = Ret results'.
Proof.
  intros Hl. revert results.
  induction Hl as [|m rest Hm _ IH]; intros results; [by eexists|].
  rewrite run_modules_cons.
  destruct (run_processing_sets_up self m Hm) as [r Hr].
  destruct (_run_processing _ _ _) as [t o]. simpl in Hr. subst o.
  rewrite bind_Ret. simpl. apply IH.
Qed.

(** *** The Orchestrator *)

Lemma run_Ret_inv self plugins doc :
  snd (run CUCKOO_VERSION Config self plugins) = Ret doc ->
  exists results sigs,
    snd (run_modules Config self (sort_by pm_order (processing plugins)) ∅)
    = Ret results /\
    snd (run_signatures CUCKOO_VERSION self (signatures plugins) results [])
    = Ret sigs /\
    doc = <["signatures" := Matches (sort_by severity sigs)]> (Data <$> results).
Proof.
  unfold run. intros H.
  apply bind_Ret_inv in H as (results & Hm & H & _).
  apply bind_Ret_inv in H as (sigs & Hs & H & _).
  simpl in H. injection H as <-. eauto.
Qed.


Lemma run_new_modules self plugins doc :
  snd (run CUCKOO_VERSION Config self plugins) = Ret doc ->
  new_modules (fst (run CUCKOO_VERSION Config self plugins))
  = sort_by pm_order (processing plugins).
Proof.
  unfold run. intros H.
  pose proof (run_modules_new_modules self
                (sort_by pm_order (processing plugins)) ∅) as Hp.
  destruct (run_modules _ _ _ _) as [t [results|e]]; [|done].
  rewrite bind_Ret in *. simpl in *.
  pose proof (run_signatures_new_modules self (signatures plugins) results [])
    as Hn.
  destruct (run_signatures _ _ _ _ _) as [t' [sigs|e]]; simpl in *; [|done].
  rewrite !new_modules_app, Hn, !app_nil_r. by eapply Hp.
Qed.


(** *** Ordering of the processing modules *)


(** *** The list of matches *)

(** C4: in the document that [run] returns, the list under ["signatures"]
    is non-decreasing in severity, and the matches of any one severity
    appear in it in the order in which their signatures were evaluated. *)
Theorem signatures_sorted_by_severity self plugins doc :
  snd (run CUCKOO_VERSION Config self plugins) = Ret doc ->
  exists results sigs,
    snd (run_modules Config self (sort_by pm_order (processing plugins)) ∅)
    = Ret results /\
    doc !! "signatures" = Some (Matches sigs) /\
    StronglySorted (le_key severity) sigs /\
    forall k,
      filter (λ r, severity r = k) sigs
      = filter (λ r, severity r = k)
          (omap (match_of CUCKOO_VERSION self results) (signatures plugins)).
Proof.
  intros H. apply run_Ret_inv in H as (results & sigs & Hm & Hs & ->).
  exists results, (sort_by severity sigs). split; [done|].
  split; [apply lookup_insert_eq|]. split; [apply sort_by_sorted|].
  intros k. rewrite sort_by_stable.
  by rewrite (run_signatures_matches _ _ _ _ _ Hs).
Qed.

(** C5: the list under ["signatures"] has as many entries as there are
    signatures that are enabled, pass the minimum and the maximum version
    check, and whose match logic returns a positive result. *)
Theorem signatures_length self plugins doc :
  snd (run CUCKOO_VERSION Config self plugins) = Ret doc ->
  exists results sigs,
    snd (run_modules Config self (sort_by pm_order (processing plugins)) ∅)
    = Ret results /\
    doc !! "signatures" = Some (Matches sigs) /\
    length sigs
    = length (List.filter (counted CUCKOO_VERSION results)
                (signatures plugins)).
Proof.
  intros H. apply run_Ret_inv in H as (results & sigs & Hm & Hs & ->).
  exists results, (sort_by severity sigs). split; [done|].
  split; [apply lookup_insert_eq|].
  rewrite sort_by_length.
  by rewrite (run_signatures_count _ _ _ _ _ Hs).
Qed.

(** *** Merging of the fragments *)

(** C3, amended: of two enabled, successful modules with the same result
    key, the later one in the sorted sequence determines the value under
    that key in the final document, provided the key is not ["signatures"]
    and no module after it in the sequence writes the key as well. *)
Theorem last_sorted_writer_wins self plugins doc l1 m1 l2 m2 l3 k v1 v2 :
  snd (run CUCKOO_VERSION Config self plugins) = Ret doc ->
  sort_by pm_order (processing plugins) = (l1 ++ m1 :: l2 ++ m2 :: l3)%list ->
  produces Config self m1 k v1 ->
  produces Config self m2 k v2 ->
  k <> "signatures" ->
  Forall (fun m => ~ writes Config self m k) l3 ->
  doc !! k = Some (Data v2).
Proof.
  intros H Hsort _ Hm2 Hk Hl3.
  apply run_Ret_inv in H as (results & sigs & Hm & _ & ->).
  rewrite lookup_insert_ne by done. rewrite lookup_fmap.
  rewrite Hsort in Hm.
  change (l1 ++ m1 :: l2 ++ m2 :: l3)%list
    with (l1 ++ (m1 :: l2) ++ m2 :: l3)%list in Hm.
  rewrite app_assoc in Hm.
  by rewrite (run_modules_last_writer _ _ _ _ _ _ _ _ Hm Hm2 Hl3).
Qed.

(** What the runner does with a module that sets up, is enabled and whose
    [run] returns. *)
Lemma run_processing_success self m st0 st1 cfg st2 v :
  pm_new m = Ret st0 ->
  pm_set_path m (analysis_path self) st0 = Ret st1 ->
  Config (pm_conf_path m st1) = Ret cfg ->
  pm_enabled m (pm_set_cfg m cfg st1) = true ->
  pm_run m (pm_set_cfg m cfg st1) = (st2, Ret v) ->
  _run_processing Config self m
  = ([NewModule m; RunModule m;
      Log DEBUG (MsgExecuted (pm_class_name m) (analysis_path self))],
     Ret (Some {[ pm_key m st2 := v ]})).
Proof.
  intros Hnew Hpath Hcfg Hen Hrun. unfold_runner.
  rewrite Hnew. simpl. rewrite Hpath. simpl. rewrite Hcfg. simpl.
  rewrite Hen. simpl. by rewrite Hrun.
Qed.

(** C10, amended: a module whose [run] returns a false value still gets the
    fragment [{key: value}] from the runner, and the Orchestrator merges
    it; the key is bound to that value in the final document provided the
    key is not ["signatures"] and no later module of the sorted sequence
    writes the key. *)
Theorem falsy_data_is_merged self m st0 st1 cfg st2 v :
  pm_new m = Ret st0 ->
  pm_set_path m (analysis_path self) st0 = Ret st1 ->
  Config (pm_conf_path m st1) = Ret cfg ->
  pm_enabled m (pm_set_cfg m cfg st1) = true ->
  pm_run m (pm_set_cfg m cfg st1) = (st2, Ret v) ->
  truthy v = false ->
  let t := [NewModule m; RunModule m;
            Log DEBUG (MsgExecuted (pm_class_name m) (analysis_path self))] in
  _run_processing Config self m = (t, Ret (Some {[ pm_key m st2 := v ]})) /\
  (forall rest results,
     run_modules Config self (m :: rest) results
     = ((t ++ fst (run_modules Config self rest
                     (<[pm_key m st2 := v]> results)))%list,
        snd (run_modules Config self rest
               (<[pm_key m st2 := v]> results)))) /\
  (forall plugins doc l1 l3,
     snd (run CUCKOO_VERSION Config self plugins) = Ret doc ->
     sort_by pm_order (processing plugins) = (l1 ++ m :: l3)%list ->
     pm_key m st2 <> "signatures" ->
     Forall (fun m' => ~ writes Config self m' (pm_key m st2)) l3 ->
     doc !! pm_key m st2 = Some (Data v)).
Proof.
  intros Hnew Hpath Hcfg Hen Hrun _ t.
  pose proof (run_processing_success _ _ _ _ _ _ _ Hnew Hpath Hcfg Hen Hrun)
    as Hp.
  split; [done|]. split.
  - intros rest results.
    rewrite (run_modules_merge _ _ _ _ (pm_key m st2) v) by by rewrite Hp.
    by rewrite Hp.
  - intros plugins doc l1 l3 H Hsort Hk Hl3.
    apply run_Ret_inv in H as (results & sigs & Hm & _ & ->).
    rewrite lookup_insert_ne by done. rewrite lookup_fmap.
    rewrite Hsort in Hm.
    rewrite (run_modules_last_writer _ _ _ _ _ _ (pm_key m st2) v Hm);
      [done| |done].
    unfold produces. by rewrite Hp.
Qed.

(** *** Failures *)

(** C8: when the [run] of an enabled module raises the analysis error, the
    runner logs one warning and returns nothing; the loop goes on with the
    later modules, on the same results; and in a run that returns its
    document every module of the sorted sequence is executed, the later
    ones included. *)
Theorem analysis_error_is_skipped self m st0 st1 cfg st2 msg :
  pm_new m = Ret st0 ->
  pm_set_path m (analysis_path self) st0 = Ret st1 ->
  Config (pm_conf_path m st1) = Ret cfg ->
  pm_enabled m (pm_set_cfg m cfg st1) = true ->
  pm_run m (pm_set_cfg m cfg st1) = (st2, Raise (CuckooProcessingError msg)) ->
  let t := [NewModule m; RunModule m;
            Log WARNING (MsgModuleError (pm_class_name m) msg)] in
  _run_processing Config self m = (t, Ret None) /\
  (forall rest results,
     run_modules Config self (m :: rest) results
     = ((t ++ fst (run_modules Config self rest results))%list,
        snd (run_modules Config self rest results))) /\
  (forall plugins doc l1 l3,
     snd (run CUCKOO_VERSION Config self plugins) = Ret doc ->
     sort_by pm_order (processing plugins) = (l1 ++ m :: l3)%list ->
     new_modules (fst (run CUCKOO_VERSION Config self plugins))
     = (l1 ++ m :: l3)%list).
Proof.
  intros Hnew Hpath Hcfg Hen Hrun t.
  assert (_run_processing Config self m = (t, Ret None)) as Hp.
  { unfold_runner. rewrite Hnew. simpl. rewrite Hpath. simpl.
    rewrite Hcfg. simpl. rewrite Hen. simpl. by rewrite Hrun. }
  split; [done|]. split.
  - intros rest results.
    rewrite run_modules_skip by by rewrite Hp. by rewrite Hp.
  - intros plugins doc l1 l3 Hdoc <-. by eapply run_new_modules.
Qed.

(** When every module sets up, every signature sets up and the version
    strings have something in front of their first dash, [run] returns a
    document, having gone through every module and every signature. *)
Lemma run_returns_when_set_up self plugins :
  split_dash_head CUCKOO_VERSION <> "" ->
  Forall (module_sets_up Config self) (processing plugins) ->
  Forall signature_sets_up (signatures plugins) ->
  exists doc,
    snd (run CUCKOO_VERSION Config self plugins) = Ret doc /\
    new_modules (fst (run CUCKOO_VERSION Config self plugins))
    = sort_by pm_order (processing plugins) /\
    length (started_signatures (fst (run CUCKOO_VERSION Config self plugins)))
    = length (signatures plugins).
Proof.
  intros Hv Hms Hss.
  assert (Forall (module_sets_up Config self)
            (sort_by pm_order (processing plugins))) as Hsorted
    by by rewrite sort_by_perm.
  destruct (run_modules_sets_up self _ ∅ Hsorted) as [results Hr].
  destruct (run_signatures_sets_up self _ results [] Hv Hss)
    as (sigs & Hsigs & Hlen).
  assert (exists doc, snd (run CUCKOO_VERSION Config self plugins) = Ret doc)
    as [doc Hdoc].
  { unfold run. destruct (run_modules _ _ _ _) as [t o]. simpl in Hr. subst o.
    rewrite bind_Ret. simpl.
    destruct (run_signatures _ _ _ _ _) as [t' o]. simpl in Hsigs. subst o.
    rewrite bind_Ret. simpl. eauto. }
  exists doc. split; [done|]. split; [by eapply run_new_modules|].
  clear Hdoc. unfold run.
  pose proof (run_modules_started self
                (sort_by pm_order (processing plugins)) ∅) as Hst.
  destruct (run_modules _ _ _ _) as [t o]. simpl in Hr, Hst. subst o.
  rewrite bind_Ret. simpl.
  destruct (run_signatures _ _ _ _ _) as [t' o]. simpl in Hsigs, Hlen. subst o.
  rewrite bind_Ret. simpl.
  by rewrite !started_signatures_app, Hst, app_nil_r.
Qed.


(** *** Version gating *)

Lemma StrictVersion_init_raises (vstring : string) (e : exn) :
  StrictVersion_init vstring = Raise e ->
  e = ValueError "invalid version number".
Proof.
  unfold StrictVersion_init.
  repeat case_match; intros; simplify_eq; done.
Qed.

(** A bound with a head that does not parse makes the comparison raise
    [ValueError], whatever the running version. *)
Lemma version_lt_unparseable (a b : string) :
  b <> "" -> version_re_match b = None ->
  version_lt a b = Raise (ValueError "invalid version number").
Proof.
  intros Hb Hnone. unfold version_lt.
  destruct (StrictVersion_init a) as [va|e] eqn:Ha.
  - by rewrite StrictVersion_init_nonempty, Hnone.
  - by rewrite (StrictVersion_init_raises _ _ Ha).
Qed.

Lemma evaluate_ran self s st :
  ran_signature (fst (evaluate self s st)) = true.
Proof.
  unfold_runner.
  repeat (case_match; simpl in *; simplify_eq; try done).
Qed.

Lemma ran_signature_app (t1 t2 : list event) :
  ran_signature (t1 ++ t2) = ran_signature t1 || ran_signature t2.
Proof. apply existsb_app. Qed.

(** C7, amended: for an enabled signature whose declared minimum, cut at
    its first dash, is not empty and does not parse as a strict version,
    the runner logs the defect at debug level and returns nothing, without
    calling [run]. *)
Theorem unparseable_minimum_is_skipped self s results st m :
  sg_new s results = Ret st ->
  sg_enabled s st = true ->
  sg_minimum s st = Some m ->
  split_dash_head m <> "" ->
  version_re_match (split_dash_head m) = None ->
  _run_signature CUCKOO_VERSION self s results
  = ([Log DEBUG (MsgRunning (sg_name s st));
      Log DEBUG (MsgWrongMinor (sg_name s st))],
     Ret None).
Proof.
  intros Hnew Hen Hmin Hhead Hnone.
  rewrite (run_signature_instance _ _ _ _ Hnew).
  unfold emit. rewrite bind_Ret. rewrite Hen, Hmin.
  unfold minimum_gate.
  assert (truthy_str (Some m) = true) as -> by by destruct m.
  by rewrite (version_lt_unparseable _ _ Hhead Hnone).
Qed.

End EngineFacts.

(** * The properties on the sample plugins *)

(** ** The version parser *)

Example version_lt_15_20 : version_lt "1.5" "2.0" = Ret true.
Proof. reflexivity. Qed.

Example version_lt_21_20 : version_lt "2.1" "2.0" = Ret false.
Proof. reflexivity. Qed.

Example version_prerelease_lower : version_lt "2.0a1" "2.0" = Ret true.
Proof. reflexivity. Qed.

Example version_three_parts :
  StrictVersion_init "1.2.3b4"
  = Ret (Parsed (1, 2, 3)%N (Some ("b"%char, 4%N))).
Proof. reflexivity. Qed.

Example version_abc_invalid :
  StrictVersion_init "abc" = Raise (ValueError "invalid version number").
Proof. reflexivity. Qed.

Example version_dev_head : split_dash_head "0.5-dev" = "0.5".
Proof. reflexivity. Qed.

(** ** The end-to-end example *)

Example example_document :
  snd (run "0.5-dev" config_ok sample_processor example_plugins)
  = Ret (<["signatures" :=
             Matches [matched signature_s2 tt; matched signature_s1 tt]]>
           (<["a" := Data (PyDict [("x", PyInt 1)])]>
              (<["b" := Data (PyDict [("y", PyInt 2)])]> ∅))).
Proof. vm_compute. reflexivity. Qed.

Example example_order :
  new_modules (fst (run "0.5-dev" config_ok sample_processor example_plugins))
  = [module_b; module_a].
Proof. reflexivity. Qed.

(** ** Ordering *)


(** ** Matches *)

Lemma signatures_sorted_by_severity_witness :
  exists doc,
    snd (run "0.5-dev" config_ok sample_processor mixed_plugins) = Ret doc /\
    exists results sigs,
      snd (run_modules config_ok sample_processor
             (sort_by pm_order (processing mixed_plugins)) ∅) = Ret results /\
      doc !! "signatures" = Some (Matches sigs) /\
      StronglySorted (le_key severity) sigs /\
      forall k,
        filter (λ r, severity r = k) sigs
        = filter (λ r, severity r = k)
            (omap (match_of "0.5-dev" sample_processor results)
               (signatures mixed_plugins)).
Proof.
  eexists. split; [reflexivity|].
  apply (signatures_sorted_by_severity "0.5-dev" config_ok sample_processor
           mixed_plugins).
  reflexivity.
Defined.

Example mixed_signatures :
  exists doc,
    snd (run "0.5-dev" config_ok sample_processor mixed_plugins) = Ret doc /\
    doc !! "signatures"
    = Some (Matches [matched signature_s2 tt; matched signature_s1 tt;
                     matched signature_s3 tt]).
Proof. eexists. split; [reflexivity|]. vm_compute. reflexivity. Qed.

Lemma signatures_length_witness :
  exists doc,
    snd (run "0.5-dev" config_ok sample_processor mixed_plugins) = Ret doc /\
    exists results sigs,
      snd (run_modules config_ok sample_processor
             (sort_by pm_order (processing mixed_plugins)) ∅) = Ret results /\
      doc !! "signatures" = Some (Matches sigs) /\
      length sigs
      = length (List.filter (counted "0.5-dev" results)
                  (signatures mixed_plugins)).
Proof.
  eexists. split; [reflexivity|].
  apply (signatures_length "0.5-dev" config_ok sample_processor mixed_plugins).
  reflexivity.
Defined.

Example mixed_counted :
  List.filter (counted "0.5-dev" ∅) (signatures mixed_plugins)
  = [signature_s1; signature_s2; signature_s3].
Proof. reflexivity. Qed.

(** ** Merging *)

(** C3 as stated fails: two writers of ["signatures"] lose their value to
    the list of matches, and of three writers of ["a"] the second one of
    the pair of the first two is overwritten by the third. *)
Lemma later_writer_overwritten :
  (exists doc v1 v2,
     snd (run "0.5-dev" config_ok sample_processor
            {| processing := [module_sigs2; module_sigs1];
               signatures := [] |}) = Ret doc /\
     sort_by pm_order [module_sigs2; module_sigs1]
     = [module_sigs1; module_sigs2] /\
     produces config_ok sample_processor module_sigs1 "signatures" v1 /\
     produces config_ok sample_processor module_sigs2 "signatures" v2 /\
     doc !! "signatures" <> Some (Data v2)) /\
  (exists doc v1 v2,
     snd (run "0.5-dev" config_ok sample_processor
            {| processing := [module_a3; module_none; module_a2];
               signatures := [] |}) = Ret doc /\
     sort_by pm_order [module_a3; module_none; module_a2]
     = [module_none; module_a2; module_a3] /\
     produces config_ok sample_processor module_none "a" v1 /\
     produces config_ok sample_processor module_a2 "a" v2 /\
     doc !! "a" <> Some (Data v2)).
Proof.
  split.
  - eexists _, (PyInt 1), (PyInt 2).
    split; [reflexivity|]. split; [reflexivity|].
    split; [by vm_compute|]. split; [by vm_compute|].
    vm_compute. discriminate.
  - eexists _, PyNone, (PyInt 2).
    split; [reflexivity|]. split; [reflexivity|].
    split; [by vm_compute|]. split; [by vm_compute|].
    vm_compute. discriminate.
Qed.

Lemma last_sorted_writer_wins_witness :
  exists doc,
    snd (run "0.5-dev" config_ok sample_processor
           {| processing := [module_a3; module_b; module_none; module_a2];
              signatures := [signature_s1] |}) = Ret doc /\
    doc !! "a" = Some (Data (PyInt 3)).
Proof.
  eexists. split; [reflexivity|].
  apply (last_sorted_writer_wins "0.5-dev" config_ok sample_processor
           {| processing := [module_a3; module_b; module_none; module_a2];
              signatures := [signature_s1] |} _
           [module_b; module_none] module_a2 [] module_a3 [] "a"
           (PyInt 2) (PyInt 3)).
  - reflexivity.
  - reflexivity.
  - by vm_compute.
  - by vm_compute.
  - discriminate.
  - constructor.
Defined.

(** C10 as stated fails: the key of a module that returned [None] is bound
    to the value of a later writer of the same key, or to the list of
    matches when the key is ["signatures"]. *)
Lemma falsy_value_overwritten :
  (exists doc,
     snd (run "0.5-dev" config_ok sample_processor
            {| processing := [module_none; module_a3]; signatures := [] |})
     = Ret doc /\
     pm_run module_none tt = (tt, Ret PyNone) /\
     truthy PyNone = false /\
     pm_key module_none tt = "a" /\
     doc !! "a" = Some (Data (PyInt 3))) /\
  (exists doc,
     snd (run "0.5-dev" config_ok sample_processor
            {| processing :=
                 [sample_module "Sigs" 1 "signatures" (Ret tt) (Ret PyNone)];
               signatures := [] |})
     = Ret doc /\
     doc !! "signatures" = Some (Matches [])).
Proof.
  split.
  - eexists. split; [reflexivity|]. repeat split; by vm_compute.
  - eexists. split; [reflexivity|]. by vm_compute.
Qed.

Lemma falsy_data_is_merged_witness :
  _run_processing config_ok sample_processor module_none
  = ([NewModule module_none; RunModule module_none;
      Log DEBUG (MsgExecuted "None" "analysis")],
     Ret (Some {[ "a" := PyNone ]})) /\
  exists doc,
    snd (run "0.5-dev" config_ok sample_processor
           {| processing := [module_b; module_none];
              signatures := [signature_s1] |}) = Ret doc /\
    doc !! "a" = Some (Data PyNone).
Proof.
  destruct (falsy_data_is_merged "0.5-dev" config_ok sample_processor
              module_none tt tt [] tt PyNone
              eq_refl eq_refl eq_refl eq_refl eq_refl eq_refl)
    as (Hrunner & _ & Hdoc).
  split; [exact Hrunner|].
  eexists. split; [reflexivity|].
  apply (Hdoc {| processing := [module_b; module_none];
                 signatures := [signature_s1] |} _ [module_b] []).
  - reflexivity.
  - reflexivity.
  - discriminate.
  - constructor.
Defined.

(** ** Failures *)

Lemma analysis_error_is_skipped_witness :
  _run_processing config_ok sample_processor module_malformed
  = ([NewModule module_malformed; RunModule module_malformed;
      Log WARNING (MsgModuleError "Malformed" "malformed input")],
     Ret None) /\
  run_modules config_ok sample_processor [module_malformed; module_a] ∅
  = ([NewModule module_malformed; RunModule module_malformed;
      Log WARNING (MsgModuleError "Malformed" "malformed input");
      NewModule module_a; RunModule module_a;
      Log DEBUG (MsgExecuted "A" "analysis")],
     Ret {[ "a" := PyDict [("x", PyInt 1)] ]}).
Proof.
  destruct (analysis_error_is_skipped "0.5-dev" config_ok sample_processor
              module_malformed tt tt [] tt "malformed input"
              eq_refl eq_refl eq_refl eq_refl eq_refl)
    as (Hrunner & Hloop & _).
  split; [exact Hrunner|].
  rewrite (Hloop [module_a] ∅). by vm_compute.
Defined.

(** C1 as stated fails: a failure of the instantiation of a module, of its
    binding to the path, of the loading of its configuration or of the
    instantiation of a signature reaches the caller of [run], and so does
    what a [run] raises outside [Exception]. *)
Lemma setup_failure_propagates :
  snd (run "0.5-dev" config_ok sample_processor
         {| processing := [module_b; module_broken; module_a];
            signatures := [signature_s1] |})
  = Raise (OtherException "IOError") /\
  snd (run "0.5-dev" config_ok sample_processor
         {| processing := [module_a; module_unbound];
            signatures := [signature_s1] |})
  = Raise (OtherException "OSError") /\
  snd (run "0.5-dev" config_broken sample_processor example_plugins)
  = Raise (OtherException "IOError") /\
  snd (run "0.5-dev" config_ok sample_processor
         {| processing := [module_a];
            signatures := [signature_s1; signature_broken] |})
  = Raise (OtherException "TypeError") /\
  snd (run "0.5-dev" config_ok sample_processor
         {| processing := [module_interrupted]; signatures := [] |})
  = Raise (NonException "KeyboardInterrupt").
Proof. repeat split. Qed.

Example run_returns_when_set_up_example :
  exists doc,
    snd (run "0.5-dev" config_ok sample_processor mixed_plugins) = Ret doc /\
    new_modules (fst (run "0.5-dev" config_ok sample_processor mixed_plugins))
    = sort_by pm_order (processing mixed_plugins) /\
    length (started_signatures
              (fst (run "0.5-dev" config_ok sample_processor mixed_plugins)))
    = length (signatures mixed_plugins).
Proof.
  apply (run_returns_when_set_up "0.5-dev" config_ok sample_processor
           mixed_plugins).
  - discriminate.
  - repeat constructor;
      (exists tt, tt, []; repeat split; intros e [= <-]; reflexivity).
  - repeat constructor;
      (intros results; exists tt;
       split; [reflexivity|];
       split; [intros b Hb _; vm_compute in Hb; by simplify_eq|];
       split; [intros b Hb _; vm_compute in Hb; by simplify_eq|];
       intros e He; vm_compute in He; by simplify_eq).
Qed.

(** ** Version gating *)

Example minimum_2_0_evaluated :
  _run_signature "2.1" sample_processor signature_min_2_0 ∅
  = ([Log DEBUG (MsgRunning "Min20"); RunSignature "Min20";
      Log DEBUG (MsgMatched "analysis" "Min20")],
     Ret (Some (matched signature_min_2_0 tt))).
Proof. reflexivity. Qed.

(** C7 as stated fails: the minimum ["2.0-beta"] does not parse as a strict
    version, yet the signature is evaluated; an empty minimum is no minimum
    at all; and a minimum with nothing in front of its dash makes the
    comparison raise [AttributeError], which the runner does not catch. *)
Lemma dashed_minimum_not_skipped :
  (StrictVersion_init "2.0-beta" = Raise (ValueError "invalid version number")
   /\ sg_enabled signature_beta tt = true
   /\ sg_minimum signature_beta tt = Some "2.0-beta"
   /\ snd (_run_signature "2.1" sample_processor signature_beta ∅)
      = Ret (Some (matched signature_beta tt))) /\
  (version_re_match "" = None
   /\ sg_minimum signature_empty_minimum tt = Some ""
   /\ snd (_run_signature "2.1" sample_processor signature_empty_minimum ∅)
      = Ret (Some (matched signature_empty_minimum tt))) /\
  (version_re_match "-rc1" = None
   /\ sg_minimum signature_dash_minimum tt = Some "-rc1"
   /\ snd (_run_signature "2.1" sample_processor signature_dash_minimum ∅)
      = Raise (AttributeError "version")).
Proof. repeat split. Qed.

Lemma unparseable_minimum_is_skipped_witness :
  _run_signature "2.1" sample_processor signature_abc ∅
  = ([Log DEBUG (MsgRunning "Abc"); Log DEBUG (MsgWrongMinor "Abc")],
     Ret None).
Proof.
  apply (unparseable_minimum_is_skipped "2.1" sample_processor signature_abc
           ∅ tt "abc"); try reflexivity.
  discriminate.
Defined.

(** * Further properties of the engine *)

Lemma bind_assoc {A B C} (m : M A) (k : A -> M B) (h : B -> M C) :
  bind (bind m k) h = bind m (fun a => bind (k a) h).
Proof.
  destruct m as [t [a|e]]; [|done].
  unfold bind. destruct (k a) as [t' [b|e]]; [|done].
  destruct (h b) as [t'' r]. by rewrite app_assoc.
Qed.

Lemma bind_ext {A B} (m : M A) (k k' : A -> M B) :
  (forall a, k a = k' a) -> bind m k = bind m k'.
Proof.
  intros H. destruct m as [t [a|e]]; [|done]. unfold bind. by rewrite H.
Qed.

Lemma called_modules_app (t1 t2 : list event) :
  called_modules (t1 ++ t2) = (called_modules t1 ++ called_modules t2)%list.
Proof. apply omap_app. Qed.

Lemma split_dash_head_idemp (s : string) :
  split_dash_head (split_dash_head s) = split_dash_head s.
Proof.
  induction s as [|c r IH]; [done|]. simpl.
  destruct (Ascii.eqb c "-") eqn:E; [done|]. simpl. by rewrite E, IH.
Qed.

Section MoreEngineFacts.
Variable CUCKOO_VERSION : string.
Variable Config : string -> outcome ConfigObj.

(** Unfolds the runners down to their case analysis. *)
Ltac unfold_engine :=
  unfold _run_processing, _run_signature, evaluate, minimum_gate,
    maximum_gate, try_except, bind, lift, emit, ret in *;
  simpl in *.

(** ** Processing modules *)

(** X1: a fragment the Processing Runner returns has exactly one entry, so
    the Orchestrator's test [if result:] lets every fragment through. *)
Theorem fragment_has_one_key self m d :
  snd (_run_processing Config self m) = Ret (Some d) ->
  size d = 1 /\ dict_truthy d = true.
Proof.
  intros H. destruct (run_processing_fragment _ _ _ _ H) as (k & v & ->).
  split; [apply map_size_singleton|].
  unfold dict_truthy.
  by rewrite bool_decide_eq_false_2 by apply map_non_empty_singleton.
Qed.

(** X2: when the [run] of an enabled module raises an exception deriving
    from [Exception] other than the analysis error, the runner logs it at
    error level with the class name and returns nothing, and the loop goes
    on with the later modules on the same results. *)
Theorem unexpected_error_is_skipped self m st0 st1 cfg st2 e :
  pm_new m = Ret st0 ->
  pm_set_path m (analysis_path self) st0 = Ret st1 ->
  Config (pm_conf_path m st1) = Ret cfg ->
  pm_enabled m (pm_set_cfg m cfg st1) = true ->
  pm_run m (pm_set_cfg m cfg st1) = (st2, Raise e) ->
  is_Exception e = true ->
  (forall msg, e <> CuckooProcessingError msg) ->
  let t := [NewModule m; RunModule m;
            Log ERROR (MsgModuleFailed (pm_class_name m))] in
  _run_processing Config self m = (t, Ret None) /\
  (forall rest results,
     run_modules Config self (m :: rest) results
     = ((t ++ fst (run_modules Config self rest results))%list,
        snd (run_modules Config self rest results))).
Proof.
  intros Hnew Hpath Hcfg Hen Hrun He Hne t.
  assert (_run_processing Config self m = (t, Ret None)) as Hp.
  { unfold_engine. rewrite Hnew. simpl. rewrite Hpath. simpl.
    rewrite Hcfg. simpl. rewrite Hen. simpl. rewrite Hrun, He.
    destruct e; try done. by destruct (Hne msg). }
  split; [done|]. intros rest results.
  rewrite run_modules_skip by by rewrite Hp. by rewrite Hp.
Qed.

(** What the runner's trace says about the call of [run], when the runner
    returns. *)
Lemma run_processing_called self m r :
  snd (_run_processing Config self m) = Ret r ->
  called_modules (fst (_run_processing Config self m))
  = if module_enabled Config self m then [m] else [].
Proof.
  unfold module_enabled. unfold_engine.
  repeat (case_match; simpl in *; simplify_eq; try done).
Qed.

Lemma run_modules_called self l results results' :
  snd (run_modules Config self l results) = Ret results' ->
  called_modules (fst (run_modules Config self l results))
  = List.filter (module_enabled Config self) l.
Proof.
  revert results. induction l as [|m rest IH]; intros results; [done|].
  rewrite run_modules_cons.
  pose proof (run_processing_called self m) as Hm.
  destruct (_run_processing Config self m) as [t [r|e]]; [|done].
  rewrite bind_Ret. simpl. intros H.
  specialize (Hm r eq_refl). simpl in Hm.
  rewrite called_modules_app, Hm, (IH _ H).
  by destruct (module_enabled Config self m).
Qed.

Lemma run_signature_called self s results :
  called_modules (fst (_run_signature CUCKOO_VERSION self s results)) = [].
Proof.
  unfold_engine.
  repeat (case_match; simpl in *; simplify_eq; try done).
Qed.

Lemma run_signatures_called self l results sigs :
  called_modules (fst (run_signatures CUCKOO_VERSION self l results sigs))
  = [].
Proof.
  revert sigs. induction l as [|s rest IH]; intros sigs; [done|].
  rewrite run_signatures_cons.
  pose proof (run_signature_called self s results) as Hs.
  destruct (_run_signature _ _ _ _) as [t [r|e]]; simpl in Hs; [|done].
  rewrite bind_Ret. simpl. by rewrite called_modules_app, Hs, IH.
Qed.

(** X3: in a run that returns its document, the modules whose [run] is
    called are exactly the enabled ones, in the sorted order: a disabled
    module is instantiated and configured but its body never executes. *)
Theorem only_enabled_modules_are_run self plugins doc :
  snd (run CUCKOO_VERSION Config self plugins) = Ret doc ->
  called_modules (fst (run CUCKOO_VERSION Config self plugins))
  = List.filter (module_enabled Config self)
      (sort_by pm_order (processing plugins)).
Proof.
  unfold run. intros H.
  pose proof (run_modules_called self
                (sort_by pm_order (processing plugins)) ∅) as Hc.
  destruct (run_modules _ _ _ _) as [t [results|e]]; [|done].
  rewrite bind_Ret in *. simpl in *.
  pose proof (run_signatures_called self (signatures plugins) results [])
    as Hn.
  destruct (run_signatures _ _ _ _ _) as [t' [sigs|e]]; simpl in *; [|done].
  rewrite !called_modules_app, Hn, !app_nil_r. by eapply Hc.
Qed.

(** Processing a list of modules in two parts: the second part starts from
    the results of the first. *)
Lemma run_modules_app self l1 l2 results :
  run_modules Config self (l1 ++ l2) results
  = bind (run_modules Config self l1 results)
      (fun mid => run_modules Config self l2 mid).
Proof.
  revert results. induction l1 as [|m rest IH]; intros results.
  - cbn [app run_modules]. unfold ret. rewrite bind_Ret. simpl.
    apply surjective_pairing.
  - rewrite <- app_comm_cons, !run_modules_cons, bind_assoc.
    apply bind_ext. intros result. apply IH.
Qed.


(** ** The document *)

Lemma Ret_Some_inj {A} (a b : A) : Ret (Some a) = Ret (Some b) -> a = b.
Proof. by intros [= ->]. Qed.

Lemma singleton_key_inj (k k' : string) (v v' : pyval) :
  ({[ k := v ]} : gmap string pyval) = {[ k' := v' ]} -> k = k'.
Proof.
  intros H. destruct (decide (k = k')) as [|Hne]; [done|].
  assert (({[ k := v ]} : gmap string pyval) !! k = Some v) as Hk
    by apply lookup_singleton_eq.
  rewrite H, lookup_singleton_ne in Hk by done. done.
Qed.

Lemma run_modules_keys self l results results' k :
  snd (run_modules Config self l results) = Ret results' ->
  is_Some (results' !! k)
  <-> is_Some (results !! k) \/ Exists (fun m => writes Config self m k) l.
Proof.
  revert results. induction l as [|m rest IH]; intros results.
  - simpl. intros [= ->]. rewrite Exists_nil. tauto.
  - rewrite run_modules_cons, Exists_cons.
    pose proof (run_processing_fragment Config self m) as Hfrag.
    destruct (_run_processing Config self m) as [t [r|e]] eqn:E; [|done].
    rewrite bind_Ret. simpl. intros H. rewrite (IH _ H).
    destruct r as [d|].
    + destruct (Hfrag d eq_refl) as (k' & v & ->).
      unfold dict_truthy, dict_update.
      rewrite bool_decide_eq_false_2 by apply map_non_empty_singleton.
      simpl. rewrite <- insert_union_singleton_l.
      destruct (decide (k' = k)) as [->|Hne].
      * rewrite lookup_insert_eq.
        assert (writes Config self m k) as Hw
          by (exists v; unfold produces; by rewrite E).
        split; [intros _; by right; left|eauto].
      * rewrite lookup_insert_ne by done.
        assert (~ writes Config self m k) as Hw.
        { intros [v' Hv']. unfold produces in Hv'. rewrite E in Hv'.
          simpl in Hv'. apply Ret_Some_inj in Hv'.
          by apply singleton_key_inj in Hv'. }
        tauto.
    + assert (~ writes Config self m k) as Hw.
      { intros [v' Hv']. unfold produces in Hv'. by rewrite E in Hv'. }
      tauto.
Qed.

(** X5: the document [run] returns always has the key ["signatures"], and
    any other key is in it exactly when some registered module is enabled,
    succeeds and returns a fragment under that key. *)
Theorem document_keys self plugins doc :
  snd (run CUCKOO_VERSION Config self plugins) = Ret doc ->
  (exists sigs, doc !! "signatures" = Some (Matches sigs)) /\
  (forall k, k <> "signatures" ->
     is_Some (doc !! k)
     <-> exists m, m ∈ processing plugins /\ writes Config self m k).
Proof.
  intros H. apply run_Ret_inv in H as (results & sigs & Hm & _ & ->).
  split; [eexists; apply lookup_insert_eq|].
  intros k Hk. rewrite lookup_insert_ne by done.
  rewrite lookup_fmap, fmap_is_Some.
  rewrite (run_modules_keys _ _ _ _ k Hm), lookup_empty, Exists_exists.
  split.
  - intros [[? [=]]|(m & Hin & Hw)]. exists m. split; [|done].
    by rewrite <- (sort_by_perm pm_order (processing plugins)).
  - intros (m & Hin & Hw). right. exists m. split; [|done].
    by rewrite (sort_by_perm pm_order (processing plugins)).
Qed.



Lemma run_processing_quiet self m :
  ran_signature (fst (_run_processing Config self m)) = false.
Proof.
  unfold_engine.
  repeat (case_match; simpl in *; simplify_eq; try done).
Qed.

Lemma run_modules_quiet self l results :
  ran_signature (fst (run_modules Config self l results)) = false.
Proof.
  revert results. induction l as [|m rest IH]; intros results; [done|].
  rewrite run_modules_cons.
  pose proof (run_processing_quiet self m) as Hm.
  destruct (_run_processing Config self m) as [t [r|e]]; simpl in Hm.
  - rewrite bind_Ret. simpl. by rewrite ran_signature_app, Hm, IH.
  - done.
Qed.

(** X7: a run has two phases: the trace splits into the part of the
    processing modules, in which no signature is announced or run, and the
    part of the signatures, in which no module is instantiated or run; so
    every signature is built against the results of all the modules. *)
Theorem modules_before_signatures self plugins :
  exists tm ts,
    fst (run CUCKOO_VERSION Config self plugins) = (tm ++ ts)%list /\
    tm = fst (run_modules Config self
                (sort_by pm_order (processing plugins)) ∅) /\
    started_signatures tm = [] /\ ran_signature tm = false /\
    new_modules ts = [] /\ called_modules ts = [].
Proof.
  unfold run.
  pose proof (run_modules_started Config self
                (sort_by pm_order (processing plugins)) ∅) as Hst.
  pose proof (run_modules_quiet self
                (sort_by pm_order (processing plugins)) ∅) as Hq.
  destruct (run_modules _ _ _ _) as [tm [results|e]]; simpl in Hst, Hq.
  - rewrite bind_Ret.
    pose proof (run_signatures_new_modules CUCKOO_VERSION self
                  (signatures plugins) results []) as Hn.
    pose proof (run_signatures_called self (signatures plugins) results [])
      as Hc.
    destruct (run_signatures _ _ _ _ _) as [ts [sigs|e]]; simpl in Hn, Hc.
    + rewrite bind_Ret. simpl. exists tm, (ts ++ [])%list.
      by rewrite new_modules_app, called_modules_app, Hn, Hc.
    + simpl. by exists tm, ts.
  - exists tm, []. by rewrite app_nil_r.
Qed.


(** ** Signatures *)

(** X8: a disabled signature is announced in the log and nothing more:
    neither its version bounds nor its match logic are looked at, and the
    loop goes on with the same list of matches. *)
Theorem disabled_signature_is_skipped self s results st :
  sg_new s results = Ret st ->
  sg_enabled s st = false ->
  let t := [Log DEBUG (MsgRunning (sg_name s st))] in
  _run_signature CUCKOO_VERSION self s results = (t, Ret None) /\
  (forall rest sigs,
     run_signatures CUCKOO_VERSION self (s :: rest) results sigs
     = ((t ++ fst (run_signatures CUCKOO_VERSION self rest results sigs))%list,
        snd (run_signatures CUCKOO_VERSION self rest results sigs))).
Proof.
  intros Hnew Hen t.
  assert (_run_signature CUCKOO_VERSION self s results = (t, Ret None)) as Hp.
  { rewrite (run_signature_instance _ _ _ _ _ Hnew).
    unfold emit. rewrite bind_Ret. by rewrite Hen. }
  split; [done|]. intros rest sigs.
  by rewrite run_signatures_cons, Hp, bind_Ret.
Qed.

Lemma minimum_gate_open version name minimum :
  minimum_passes version minimum = true ->
  minimum_gate version name minimum = ([], Ret false).
Proof.
  unfold minimum_passes, minimum_gate.
  destruct minimum as [m|]; [|done].
  destruct (truthy_str (Some m)); [|done].
  destruct (version_lt version (split_dash_head m)) as [[]|e]; done.
Qed.

Lemma maximum_gate_open version name maximum :
  maximum_passes version maximum = true ->
  maximum_gate version name maximum = ([], Ret false).
Proof.
  unfold maximum_passes, maximum_gate.
  destruct maximum as [m|]; [|done].
  destruct (truthy_str (Some m)); [|done].
  destruct (version_gt version (split_dash_head m)) as [[]|e]; done.
Qed.

Lemma passes_unbounded version bound :
  truthy_str bound = false ->
  minimum_passes version bound = true /\ maximum_passes version bound = true.
Proof.
  unfold minimum_passes, maximum_passes.
  destruct bound as [b|]; [|done]. by intros ->.
Qed.

(** The runner on an enabled instance that both version checks let
    through. *)
Lemma run_signature_open self s results st :
  sg_new s results = Ret st ->
  sg_enabled s st = true ->
  minimum_passes (split_dash_head CUCKOO_VERSION) (sg_minimum s st) = true ->
  maximum_passes (split_dash_head CUCKOO_VERSION) (sg_maximum s st) = true ->
  _run_signature CUCKOO_VERSION self s results
  = (Log DEBUG (MsgRunning (sg_name s st)) :: fst (evaluate self s st),
     snd (evaluate self s st)).
Proof.
  intros Hnew Hen Hmin Hmax.
  rewrite (run_signature_instance _ _ _ _ _ Hnew).
  unfold emit. rewrite bind_Ret. rewrite Hen.
  rewrite (minimum_gate_open _ _ _ Hmin), (maximum_gate_open _ _ _ Hmax).
  simpl. by destruct (evaluate self s st).
Qed.

(** X9: an enabled signature that declares no minimum and no maximum
    ([None] or the empty string) is never held back by version gating: its
    [run] is called, and the runner does the same whatever the version of
    the engine, be it one that does not parse. *)
Theorem unbounded_signature_is_evaluated self s results st :
  sg_new s results = Ret st ->
  sg_enabled s st = true ->
  truthy_str (sg_minimum s st) = false ->
  truthy_str (sg_maximum s st) = false ->
  ran_signature (fst (_run_signature CUCKOO_VERSION self s results)) = true /\
  (forall other_version,
     _run_signature other_version self s results
     = _run_signature CUCKOO_VERSION self s results).
Proof.
  intros Hnew Hen Hmin Hmax.
  assert (forall v,
            _run_signature v self s results
            = (Log DEBUG (MsgRunning (sg_name s st))
                 :: fst (evaluate self s st),
               snd (evaluate self s st))) as Hv.
  { intros v.
    rewrite (run_signature_instance _ _ _ _ _ Hnew).
    unfold emit. rewrite bind_Ret. rewrite Hen.
    rewrite (minimum_gate_open _ _ _
               (proj1 (passes_unbounded (split_dash_head v) _ Hmin))).
    rewrite (maximum_gate_open _ _ _
               (proj2 (passes_unbounded (split_dash_head v) _ Hmax))).
    simpl. by destruct (evaluate self s st). }
  split.
  - rewrite Hv. simpl. apply evaluate_ran.
  - intros v. by rewrite !Hv.
Qed.

(** X10: what the runner returns for an enabled signature that passes the
    version checks depends on its [run] alone: a true value gives the match
    record read off the instance as [run] left it, a false value gives
    nothing, an exception deriving from [Exception] gives nothing, and any
    other exception propagates. *)
Theorem evaluation_outcome self s results st :
  sg_new s results = Ret st ->
  sg_enabled s st = true ->
  minimum_passes (split_dash_head CUCKOO_VERSION) (sg_minimum s st) = true ->
  maximum_passes (split_dash_head CUCKOO_VERSION) (sg_maximum s st) = true ->
  snd (_run_signature CUCKOO_VERSION self s results)
  = match sg_run s st with
    | (st', Ret v) =>
        Ret (if truthy v then Some (matched s st') else None)
    | (_, Raise e) => if is_Exception e then Ret None else Raise e
    end.
Proof.
  intros Hnew Hen Hmin Hmax.
  rewrite (run_signature_open _ _ _ _ Hnew Hen Hmin Hmax). simpl.
  unfold_engine.
  destruct (sg_run s st) as [st' [v|e]]; simpl.
  - by destruct (truthy v).
  - by destruct (is_Exception e).
Qed.

(** X11: an enabled signature whose maximum, cut at its first dash, parses
    strictly lower than the running version is skipped: the runner logs the
    incompatibility at debug level, with the maximum as declared, and
    returns nothing without calling [run]. *)
Theorem newer_than_maximum_is_skipped self s results st mx running hi :
  sg_new s results = Ret st ->
  sg_enabled s st = true ->
  minimum_passes (split_dash_head CUCKOO_VERSION) (sg_minimum s st) = true ->
  sg_maximum s st = Some mx ->
  mx <> "" ->
  StrictVersion_init (split_dash_head CUCKOO_VERSION) = Ret running ->
  StrictVersion_init (split_dash_head mx) = Ret hi ->
  StrictVersion_cmp running hi = Ret Gt ->
  _run_signature CUCKOO_VERSION self s results
  = ([Log DEBUG (MsgRunning (sg_name s st));
      Log DEBUG (MsgNewer (sg_name s st) mx)],
     Ret None).
Proof.
  intros Hnew Hen Hmin Hmax Hmx Hrunning Hhi Hc.
  rewrite (run_signature_instance _ _ _ _ _ Hnew).
  unfold emit. rewrite bind_Ret. rewrite Hen.
  rewrite (minimum_gate_open _ _ _ Hmin), Hmax.
  unfold maximum_gate.
  assert (truthy_str (Some mx) = true) as -> by by destruct mx.
  unfold version_gt. by rewrite Hrunning, Hhi, Hc.
Qed.

Lemma version_gt_unparseable (a b : string) :
  b <> "" -> version_re_match b = None ->
  version_gt a b = Raise (ValueError "invalid version number").
Proof.
  intros Hb Hnone. unfold version_gt.
  destruct (StrictVersion_init a) as [va|e] eqn:Ha.
  - by rewrite StrictVersion_init_nonempty, Hnone.
  - by rewrite (StrictVersion_init_raises _ _ Ha).
Qed.

(** X12: an enabled signature that passes the minimum check and whose
    maximum, cut at its first dash, is not empty and does not parse is
    skipped: the runner logs the defect at debug level and returns nothing
    without calling [run]. *)
Theorem unparseable_maximum_is_skipped self s results st mx :
  sg_new s results = Ret st ->
  sg_enabled s st = true ->
  minimum_passes (split_dash_head CUCKOO_VERSION) (sg_minimum s st) = true ->
  sg_maximum s st = Some mx ->
  split_dash_head mx <> "" ->
  version_re_match (split_dash_head mx) = None ->
  _run_signature CUCKOO_VERSION self s results
  = ([Log DEBUG (MsgRunning (sg_name s st));
      Log DEBUG (MsgWrongMajor (sg_name s st))],
     Ret None).
Proof.
  intros Hnew Hen Hmin Hmax Hhead Hnone.
  rewrite (run_signature_instance _ _ _ _ _ Hnew).
  unfold emit. rewrite bind_Ret. rewrite Hen.
  rewrite (minimum_gate_open _ _ _ Hmin), Hmax.
  unfold maximum_gate.
  assert (truthy_str (Some mx) = true) as -> by by destruct mx.
  by rewrite (version_gt_unparseable _ _ Hhead Hnone).
Qed.


(** ** The version of the engine *)

Lemma run_signature_version_head self s results :
  _run_signature (split_dash_head CUCKOO_VERSION) self s results
  = _run_signature CUCKOO_VERSION self s results.
Proof.
  unfold _run_signature. by rewrite split_dash_head_idemp.
Qed.

Lemma run_signatures_version_head self l results sigs :
  run_signatures (split_dash_head CUCKOO_VERSION) self l results sigs
  = run_signatures CUCKOO_VERSION self l results sigs.
Proof.
  revert sigs. induction l as [|s rest IH]; intros sigs; [done|].
  rewrite !run_signatures_cons, run_signature_version_head.
  apply bind_ext. intros m. apply IH.
Qed.

(** X13: what follows the first dash of the engine's version string has no
    effect on a run: the trace and the outcome are those of the run with
    the version cut at its first dash. *)
Theorem version_suffix_is_ignored self plugins :
  run (split_dash_head CUCKOO_VERSION) Config self plugins
  = run CUCKOO_VERSION Config self plugins.
Proof.
  unfold run. apply bind_ext. intros results.
  by rewrite run_signatures_version_head.
Qed.

(** X14: an enabled signature whose declared minimum starts with a dash
    has nothing left to parse once cut; against a running version that
    parses, the comparison raises [AttributeError], which the runner does
    not catch: the failure leaves the runner and ends the loop over the
    signatures. *)
Theorem empty_head_minimum_raises self s results st m v p :
  sg_new s results = Ret st ->
  sg_enabled s st = true ->
  sg_minimum s st = Some m ->
  m <> "" ->
  split_dash_head m = "" ->
  StrictVersion_init (split_dash_head CUCKOO_VERSION) = Ret (Parsed v p) ->
  _run_signature CUCKOO_VERSION self s results
  = ([Log DEBUG (MsgRunning (sg_name s st))],
     Raise (AttributeError "version")) /\
  (forall rest sigs,
     run_signatures CUCKOO_VERSION self (s :: rest) results sigs
     = ([Log DEBUG (MsgRunning (sg_name s st))],
        Raise (AttributeError "version"))).
Proof.
  intros Hnew Hen Hmin Hm Hhead Hrunning.
  assert (_run_signature CUCKOO_VERSION self s results
          = ([Log DEBUG (MsgRunning (sg_name s st))],
             Raise (AttributeError "version"))) as Hp.
  { rewrite (run_signature_instance _ _ _ _ _ Hnew).
    unfold emit. rewrite bind_Ret. rewrite Hen, Hmin.
    unfold minimum_gate.
    assert (truthy_str (Some m) = true) as -> by by destruct m.
    unfold version_lt. by rewrite Hrunning, Hhead. }
  split; [done|]. intros rest sigs.
  by rewrite run_signatures_cons, Hp.
Qed.

Lemma version_lt_unparseable_running (a b : string) :
  a <> "" -> version_re_match a = None ->
  version_lt a b = Raise (ValueError "invalid version number").
Proof.
  intros Ha Hnone. unfold version_lt.
  by rewrite StrictVersion_init_nonempty, Hnone.
Qed.

(** X15: when the engine's own version, cut at its first dash, is not
    empty and does not parse, every enabled signature that declares a
    minimum is skipped with the debug record of a wrong version number,
    whatever the minimum is. *)
Theorem unparseable_engine_version_skips self s results st m :
  split_dash_head CUCKOO_VERSION <> "" ->
  version_re_match (split_dash_head CUCKOO_VERSION) = None ->
  sg_new s results = Ret st ->
  sg_enabled s st = true ->
  sg_minimum s st = Some m ->
  m <> "" ->
  _run_signature CUCKOO_VERSION self s results
  = ([Log DEBUG (MsgRunning (sg_name s st));
      Log DEBUG (MsgWrongMinor (sg_name s st))],
     Ret None).
Proof.
  intros Hv Hnone Hnew Hen Hmin Hm.
  rewrite (run_signature_instance _ _ _ _ _ Hnew).
  unfold emit. rewrite bind_Ret. rewrite Hen, Hmin.
  unfold minimum_gate.
  assert (truthy_str (Some m) = true) as -> by by destruct m.
  by rewrite (version_lt_unparseable_running _ _ Hv Hnone).
Qed.

(** ** Order of the signatures *)

Lemma run_signature_announced self s results r :
  snd (_run_signature CUCKOO_VERSION self s results) = Ret r ->
  started_signatures (fst (_run_signature CUCKOO_VERSION self s results))
  = [announced_name results s].
Proof.
  unfold announced_name. intros H.
  destruct (sg_new s results) as [st|e] eqn:Hnew.
  - by apply run_signature_started.
  - unfold _run_signature in H. by rewrite Hnew in H.
Qed.

Lemma run_signatures_announced self l results sigs sigs' :
  snd (run_signatures CUCKOO_VERSION self l results sigs) = Ret sigs' ->
  started_signatures
    (fst (run_signatures CUCKOO_VERSION self l results sigs))
  = announced_name results <$> l.
Proof.
  revert sigs. induction l as [|s rest IH]; intros sigs; [done|].
  rewrite run_signatures_cons.
  pose proof (run_signature_announced self s results) as Hs.
  destruct (_run_signature _ _ _ _) as [t [r|e]]; [|done].
  rewrite bind_Ret. simpl. intros H.
  specialize (Hs r eq_refl). simpl in Hs.
  by rewrite started_signatures_app, Hs, (IH _ H).
Qed.

(** X16: the signatures are evaluated in the order in which the registry
    supplies them, without any sorting: in a run that returns, the names
    announced in the log are those of the signatures, built against the
    merged results, in registry order. *)
Theorem signatures_run_in_registry_order self plugins doc :
  snd (run CUCKOO_VERSION Config self plugins) = Ret doc ->
  exists results,
    snd (run_modules Config self (sort_by pm_order (processing plugins)) ∅)
    = Ret results /\
    started_signatures (fst (run CUCKOO_VERSION Config self plugins))
    = announced_name results <$> signatures plugins.
Proof.
  unfold run. intros H.
  pose proof (run_modules_started Config self
                (sort_by pm_order (processing plugins)) ∅) as Hst.
  destruct (run_modules _ _ _ _) as [t [results|e]]; [|done].
  exists results. split; [done|].
  rewrite bind_Ret in *. simpl in *.
  pose proof (run_signatures_announced self (signatures plugins) results [])
    as Hn.
  destruct (run_signatures _ _ _ _ _) as [t' [sigs|e]]; simpl in *; [|done].
  rewrite !started_signatures_app, Hst, app_nil_r. simpl.
  by erewrite Hn.
Qed.

End MoreEngineFacts.

(** * The further properties on the sample plugins *)

Lemma fragment_has_one_key_witness :
  size ({[ "a" := PyNone ]} : gmap string pyval) = 1 /\
  dict_truthy ({[ "a" := PyNone ]} : gmap string pyval) = true.
Proof.
  apply (fragment_has_one_key config_ok sample_processor module_none).
  reflexivity.
Defined.

Lemma unexpected_error_is_skipped_witness :
  _run_processing config_ok sample_processor module_crashing
  = ([NewModule module_crashing; RunModule module_crashing;
      Log ERROR (MsgModuleFailed "Crashing")],
     Ret None) /\
  snd (run_modules config_ok sample_processor [module_crashing; module_b] ∅)
  = snd (run_modules config_ok sample_processor [module_b] ∅).
Proof.
  destruct (unexpected_error_is_skipped config_ok sample_processor
              module_crashing tt tt [] tt (OtherException "KeyError")
              eq_refl eq_refl eq_refl eq_refl eq_refl eq_refl
              ltac:(discriminate))
    as (Hrunner & Hloop).
  split; [exact Hrunner|]. by rewrite (Hloop [module_b] ∅).
Defined.

Lemma only_enabled_modules_are_run_witness :
  new_modules (fst (run "0.5-dev" config_ok sample_processor disabled_plugins))
  = [module_disabled; module_b; module_a; module_malformed] /\
  called_modules
    (fst (run "0.5-dev" config_ok sample_processor disabled_plugins))
  = [module_b; module_a; module_malformed].
Proof.
  split; [reflexivity|].
  eapply (only_enabled_modules_are_run "0.5-dev" config_ok sample_processor
            disabled_plugins).
  reflexivity.
Defined.

Lemma document_keys_witness :
  exists doc,
    snd (run "0.5-dev" config_ok sample_processor disabled_plugins) = Ret doc /\
    (exists sigs, doc !! "signatures" = Some (Matches sigs)) /\
    (forall k, k <> "signatures" ->
       is_Some (doc !! k)
       <-> exists m, m ∈ processing disabled_plugins /\
                     writes config_ok sample_processor m k).
Proof.
  eexists. split; [reflexivity|].
  apply (document_keys "0.5-dev" config_ok sample_processor disabled_plugins).
  reflexivity.
Defined.


Lemma disabled_signature_is_skipped_witness :
  _run_signature "0.5-dev" sample_processor signature_disabled ∅
  = ([Log DEBUG (MsgRunning "Disabled")], Ret None) /\
  snd (run_signatures "0.5-dev" sample_processor
         [signature_disabled; signature_s1] ∅ [])
  = Ret [matched signature_s1 tt].
Proof.
  destruct (disabled_signature_is_skipped "0.5-dev" sample_processor
              signature_disabled ∅ tt eq_refl eq_refl)
    as (Hrunner & Hloop).
  split; [exact Hrunner|]. by rewrite (Hloop [signature_s1] []).
Defined.

Lemma unbounded_signature_is_evaluated_witness :
  ran_signature
    (fst (_run_signature "trunk" sample_processor signature_stateful ∅))
  = true /\
  _run_signature "0.5-dev" sample_processor signature_stateful ∅
  = _run_signature "trunk" sample_processor signature_stateful ∅.
Proof.
  destruct (unbounded_signature_is_evaluated "trunk" sample_processor
              signature_stateful ∅ ("Stateful", PyNone)
              eq_refl eq_refl eq_refl eq_refl)
    as (Hran & Hany).
  split; [exact Hran|]. exact (Hany "0.5-dev").
Defined.

Lemma evaluation_outcome_witness :
  snd (_run_signature "0.5-dev" sample_processor signature_stateful ∅)
  = Ret (Some {| name := "Renamed";
                 description := "sample";
                 severity := 2;
                 references := [];
                 data := PyList [PyStr "evidence"];
                 alert := true |}) /\
  snd (_run_signature "0.5-dev" sample_processor signature_crashing ∅)
  = Ret None.
Proof.
  split.
  - exact (evaluation_outcome "0.5-dev" sample_processor signature_stateful
             ∅ ("Stateful", PyNone) eq_refl eq_refl eq_refl eq_refl).
  - exact (evaluation_outcome "0.5-dev" sample_processor signature_crashing
             ∅ tt eq_refl eq_refl eq_refl eq_refl).
Defined.

Lemma newer_than_maximum_is_skipped_witness :
  _run_signature "2.1-dev" sample_processor signature_max_2_0 ∅
  = ([Log DEBUG (MsgRunning "Max20");
      Log DEBUG (MsgNewer "Max20" "2.0-final")],
     Ret None).
Proof.
  apply (newer_than_maximum_is_skipped "2.1-dev" sample_processor
           signature_max_2_0 ∅ tt "2.0-final"
           (Parsed (2, 1, 0)%N None) (Parsed (2, 0, 0)%N None));
    try reflexivity.
  discriminate.
Defined.

Lemma unparseable_maximum_is_skipped_witness :
  _run_signature "2.1-dev" sample_processor signature_max_abc ∅
  = ([Log DEBUG (MsgRunning "MaxAbc"); Log DEBUG (MsgWrongMajor "MaxAbc")],
     Ret None).
Proof.
  apply (unparseable_maximum_is_skipped "2.1-dev" sample_processor
           signature_max_abc ∅ tt "abc-1");
    try reflexivity.
  discriminate.
Defined.

Lemma empty_head_minimum_raises_witness :
  _run_signature "2.1" sample_processor signature_dash_minimum ∅
  = ([Log DEBUG (MsgRunning "Dash")], Raise (AttributeError "version")) /\
  run_signatures "2.1" sample_processor
    [signature_dash_minimum; signature_s1] ∅ []
  = ([Log DEBUG (MsgRunning "Dash")], Raise (AttributeError "version")).
Proof.
  destruct (empty_head_minimum_raises "2.1" sample_processor
              signature_dash_minimum ∅ tt "-rc1" (2, 1, 0)%N None
              eq_refl eq_refl eq_refl ltac:(discriminate) eq_refl eq_refl)
    as (Hrunner & Hloop).
  split; [exact Hrunner|]. exact (Hloop [signature_s1] []).
Defined.

Lemma unparseable_engine_version_skips_witness :
  _run_signature "trunk-dev" sample_processor signature_min_2_0 ∅
  = ([Log DEBUG (MsgRunning "Min20"); Log DEBUG (MsgWrongMinor "Min20")],
     Ret None).
Proof.
  apply (unparseable_engine_version_skips "trunk-dev" sample_processor
           signature_min_2_0 ∅ tt "2.0");
    try reflexivity; discriminate.
Defined.

Lemma signatures_run_in_registry_order_witness :
  started_signatures
    (fst (run "0.5-dev" config_ok sample_processor mixed_plugins))
  = ["S1"; "Negative"; "S2"; "Crashing"; "S3"; "Abc"].
Proof.
  edestruct (signatures_run_in_registry_order "0.5-dev" config_ok
               sample_processor mixed_plugins)
    as (results & Hres & Hnames); [reflexivity|].
  rewrite Hnames. reflexivity.
Defined.

(** * Failures and version bounds, unit by unit *)

Lemma split_dash_head_no_dash (b : string) :
  no_dash b = true -> split_dash_head b = b.
Proof.
  induction b as [|c r IH]; [done|]. simpl.
  destruct (Ascii.eqb c "-"); [done|]. simpl. intros H. by rewrite IH.
Qed.

Lemma split_dash_head_with_suffix (b : string) (suffix : option string) :
  no_dash b = true -> split_dash_head (with_suffix b suffix) = b.
Proof.
  destruct suffix as [x|]; [|apply split_dash_head_no_dash].
  unfold with_suffix. induction b as [|c r IH]; [done|]. simpl.
  destruct (Ascii.eqb c "-"); [done|]. simpl. intros H. by rewrite IH.
Qed.

Lemma with_suffix_truthy (b : string) (suffix : option string) :
  b <> "" -> truthy_str (Some (with_suffix b suffix)) = true.
Proof.
  destruct b as [|c r]; [done|]. by destruct suffix.
Qed.

Lemma StrictVersion_init_parsed (b : string) (lo : StrictVersion) :
  b <> "" -> StrictVersion_init b = Ret lo -> exists v p, lo = Parsed v p.
Proof.
  intros Hb. rewrite StrictVersion_init_nonempty by done.
  destruct (version_re_match b) as [[v p]|]; [|done].
  intros [= <-]. eauto.
Qed.

Lemma StrictVersion_cmp_parsed v p v' p' :
  exists c, StrictVersion_cmp (Parsed v p) (Parsed v' p') = Ret c.
Proof.
  simpl. destruct (cmp_triple v v'); destruct p, p'; eauto.
Qed.

(** The minimum check on a bound with a head: it skips exactly when the
    running version is lower than the head, or the head does not parse. *)
Lemma minimum_gate_at_least version name v p mn suffix :
  StrictVersion_init version = Ret (Parsed v p) ->
  (forall b, mn = Some b -> b <> "" /\ no_dash b = true) ->
  exists t,
    minimum_gate version name ((fun b => with_suffix b suffix) <$> mn)
    = (t, Ret (negb (at_least (Parsed v p) mn))) /\
    ran_signature t = false.
Proof.
  intros Hv Hmn. destruct mn as [b|]; [|by eexists].
  destruct (Hmn b eq_refl) as [Hb Hdash].
  change ((fun b => with_suffix b suffix) <$> Some b)
    with (Some (with_suffix b suffix)).
  unfold minimum_gate. rewrite with_suffix_truthy by done.
  rewrite split_dash_head_with_suffix by done.
  unfold version_lt. rewrite Hv.
  destruct (StrictVersion_init b) as [lo|e] eqn:Hlo.
  - destruct (StrictVersion_init_parsed _ _ Hb Hlo) as (v' & p' & ->).
    destruct (StrictVersion_cmp_parsed v p v' p') as [c Hc]. rewrite Hc.
    unfold at_least. rewrite Hlo, Hc. destruct c; by eexists.
  - unfold at_least. rewrite Hlo.
    rewrite (StrictVersion_init_raises _ _ Hlo). by eexists.
Qed.

Lemma maximum_gate_at_most version name v p mx suffix :
  StrictVersion_init version = Ret (Parsed v p) ->
  (forall b, mx = Some b -> b <> "" /\ no_dash b = true) ->
  exists t,
    maximum_gate version name ((fun b => with_suffix b suffix) <$> mx)
    = (t, Ret (negb (at_most (Parsed v p) mx))) /\
    ran_signature t = false.
Proof.
  intros Hv Hmx. destruct mx as [b|]; [|by eexists].
  destruct (Hmx b eq_refl) as [Hb Hdash].
  change ((fun b => with_suffix b suffix) <$> Some b)
    with (Some (with_suffix b suffix)).
  unfold maximum_gate. rewrite with_suffix_truthy by done.
  rewrite split_dash_head_with_suffix by done.
  unfold version_gt. rewrite Hv.
  destruct (StrictVersion_init b) as [hi|e] eqn:Hhi.
  - destruct (StrictVersion_init_parsed _ _ Hb Hhi) as (v' & p' & ->).
    destruct (StrictVersion_cmp_parsed v p v' p') as [c Hc]. rewrite Hc.
    unfold at_most. rewrite Hhi, Hc. destruct c; by eexists.
  - unfold at_most. rewrite Hhi.
    rewrite (StrictVersion_init_raises _ _ Hhi). by eexists.
Qed.

Lemma evaluate_outcome self s st :
  snd (evaluate self s st) = run_outcome s st.
Proof.
  unfold run_outcome, evaluate, try_except, bind, lift, emit, ret.
  destruct (sg_run s st) as [st' [v|e]]; simpl.
  - by destruct (truthy v).
  - by destruct (is_Exception e).
Qed.

Lemma snd_bind_Raise {A B} (m : M A) (k : A -> M B) (e : exn) :
  snd m = Raise e -> snd (bind m k) = Raise e.
Proof. destruct m as [t o]. simpl. by intros ->. Qed.

Lemma snd_bind_Ret {A B} (m : M A) (k : A -> M B) (a : A) :
  snd m = Ret a -> snd (bind m k) = snd (k a).
Proof.
  destruct m as [t o]. intros H. simpl in H. subst o. by rewrite bind_Ret.
Qed.

Section UnitFacts.
Variable CUCKOO_VERSION : string.
Variable Config : string -> outcome ConfigObj.

Lemma run_signatures_app self l1 l2 results sigs :
  run_signatures CUCKOO_VERSION self (l1 ++ l2) results sigs
  = bind (run_signatures CUCKOO_VERSION self l1 results sigs)
      (fun mid => run_signatures CUCKOO_VERSION self l2 results mid).
Proof.
  revert sigs. induction l1 as [|s rest IH]; intros sigs.
  - cbn [app run_signatures]. unfold ret. rewrite bind_Ret. simpl.
    apply surjective_pairing.
  - rewrite <- app_comm_cons, !run_signatures_cons, bind_assoc.
    apply bind_ext. intros m. apply IH.
Qed.

(** What leaves a runner leaves the loop, once the units before it are
    done. *)
Lemma run_modules_raises self l1 m l3 results mid e :
  snd (run_modules Config self l1 results) = Ret mid ->
  snd (_run_processing Config self m) = Raise e ->
  snd (run_modules Config self (l1 ++ m :: l3) results) = Raise e.
Proof.
  intros H1 Hm. rewrite run_modules_app.
  rewrite (snd_bind_Ret _ _ _ H1), run_modules_cons.
  by apply snd_bind_Raise.
Qed.

Lemma run_signatures_raises self l1 s l3 results sigs mid e :
  snd (run_signatures CUCKOO_VERSION self l1 results sigs) = Ret mid ->
  snd (_run_signature CUCKOO_VERSION self s results) = Raise e ->
  snd (run_signatures CUCKOO_VERSION self (l1 ++ s :: l3) results sigs)
  = Raise e.
Proof.
  intros H1 Hs. rewrite run_signatures_app.
  rewrite (snd_bind_Ret _ _ _ H1), run_signatures_cons.
  by apply snd_bind_Raise.
Qed.

(** C1, amended: a failure deriving from [Exception] that the [run] of a
    unit raises does not leave the runner: the runner logs it and returns
    nothing, and the loop goes on with the next unit on the same results
    or matches.  A failure of the instantiation of a module, of its binding
    to the path, of the loading of its configuration or of the
    instantiation of a signature, and an exception outside [Exception]
    raised by a [run], leave the runner, and what leaves a runner reaches
    the caller of [run] once the units before it are done. *)
Theorem run_failures_are_isolated self :
  (forall m st0 st1 cfg st2 e,
     pm_new m = Ret st0 ->
     pm_set_path m (analysis_path self) st0 = Ret st1 ->
     Config (pm_conf_path m st1) = Ret cfg ->
     pm_enabled m (pm_set_cfg m cfg st1) = true ->
     pm_run m (pm_set_cfg m cfg st1) = (st2, Raise e) ->
     is_Exception e = true ->
     let t := [NewModule m; RunModule m;
               module_failure_record (pm_class_name m) e] in
     _run_processing Config self m = (t, Ret None) /\
     forall rest results,
       run_modules Config self (m :: rest) results
       = ((t ++ fst (run_modules Config self rest results))%list,
          snd (run_modules Config self rest results))) /\
  (forall s results st st' e,
     sg_new s results = Ret st ->
     sg_enabled s st = true ->
     minimum_passes (split_dash_head CUCKOO_VERSION) (sg_minimum s st)
     = true ->
     maximum_passes (split_dash_head CUCKOO_VERSION) (sg_maximum s st)
     = true ->
     sg_run s st = (st', Raise e) ->
     is_Exception e = true ->
     let t := [Log DEBUG (MsgRunning (sg_name s st));
               RunSignature (sg_name s st);
               Log ERROR (MsgSignatureFailed (sg_name s st'))] in
     _run_signature CUCKOO_VERSION self s results = (t, Ret None) /\
     forall rest sigs,
       run_signatures CUCKOO_VERSION self (s :: rest) results sigs
       = ((t ++ fst (run_signatures CUCKOO_VERSION self rest results sigs))
            %list,
          snd (run_signatures CUCKOO_VERSION self rest results sigs))) /\
  (forall m e,
     pm_new m = Raise e ->
     snd (_run_processing Config self m) = Raise e) /\
  (forall m st0 e,
     pm_new m = Ret st0 ->
     pm_set_path m (analysis_path self) st0 = Raise e ->
     snd (_run_processing Config self m) = Raise e) /\
  (forall m st0 st1 e,
     pm_new m = Ret st0 ->
     pm_set_path m (analysis_path self) st0 = Ret st1 ->
     Config (pm_conf_path m st1) = Raise e ->
     snd (_run_processing Config self m) = Raise e) /\
  (forall m st0 st1 cfg st2 e,
     pm_new m = Ret st0 ->
     pm_set_path m (analysis_path self) st0 = Ret st1 ->
     Config (pm_conf_path m st1) = Ret cfg ->
     pm_enabled m (pm_set_cfg m cfg st1) = true ->
     pm_run m (pm_set_cfg m cfg st1) = (st2, Raise e) ->
     is_Exception e = false ->
     snd (_run_processing Config self m) = Raise e) /\
  (forall s results e,
     sg_new s results = Raise e ->
     snd (_run_signature CUCKOO_VERSION self s results) = Raise e) /\
  (forall s results st st' e,
     sg_new s results = Ret st ->
     sg_enabled s st = true ->
     minimum_passes (split_dash_head CUCKOO_VERSION) (sg_minimum s st)
     = true ->
     maximum_passes (split_dash_head CUCKOO_VERSION) (sg_maximum s st)
     = true ->
     sg_run s st = (st', Raise e) ->
     is_Exception e = false ->
     snd (_run_signature CUCKOO_VERSION self s results) = Raise e) /\
  (forall plugins l1 m l3 mid e,
     sort_by pm_order (processing plugins) = (l1 ++ m :: l3)%list ->
     snd (run_modules Config self l1 ∅) = Ret mid ->
     snd (_run_processing Config self m) = Raise e ->
     snd (run CUCKOO_VERSION Config self plugins) = Raise e) /\
  (forall plugins results l1 s l3 sigs e,
     snd (run_modules Config self (sort_by pm_order (processing plugins)) ∅)
     = Ret results ->
     signatures plugins = (l1 ++ s :: l3)%list ->
     snd (run_signatures CUCKOO_VERSION self l1 results []) = Ret sigs ->
     snd (_run_signature CUCKOO_VERSION self s results) = Raise e ->
     snd (run CUCKOO_VERSION Config self plugins) = Raise e).
Proof.
  repeat apply conj.
  - intros m st0 st1 cfg st2 e Hnew Hpath Hcfg Hen Hrun He t.
    assert (_run_processing Config self m = (t, Ret None)) as Hp.
    { unfold _run_processing, try_except, bind, lift, emit, ret.
      rewrite Hnew. simpl. rewrite Hpath. simpl. rewrite Hcfg. simpl.
      rewrite Hen. simpl. rewrite Hrun, He. by destruct e. }
    split; [done|]. intros rest results.
    rewrite run_modules_skip by by rewrite Hp. by rewrite Hp.
  - intros s results st st' e Hnew Hen Hmin Hmax Hrun He t.
    assert (_run_signature CUCKOO_VERSION self s results = (t, Ret None))
      as Hp.
    { rewrite (run_signature_open _ _ _ _ _ Hnew Hen Hmin Hmax).
      unfold evaluate, try_except, bind, lift, emit, ret.
      by rewrite Hrun, He. }
    split; [done|]. intros rest sigs.
    by rewrite run_signatures_cons, Hp, bind_Ret.
  - intros m e Hnew.
    unfold _run_processing, bind, lift, emit. by rewrite Hnew.
  - intros m st0 e Hnew Hpath.
    unfold _run_processing, bind, lift, emit. rewrite Hnew. simpl.
    by rewrite Hpath.
  - intros m st0 st1 e Hnew Hpath Hcfg.
    unfold _run_processing, bind, lift, emit. rewrite Hnew. simpl.
    rewrite Hpath. simpl. by rewrite Hcfg.
  - intros m st0 st1 cfg st2 e Hnew Hpath Hcfg Hen Hrun He.
    unfold _run_processing, try_except, bind, lift, emit, ret.
    rewrite Hnew. simpl. rewrite Hpath. simpl. rewrite Hcfg. simpl.
    rewrite Hen. simpl. by rewrite Hrun, He.
  - intros s results e Hnew.
    unfold _run_signature, bind, lift. by rewrite Hnew.
  - intros s results st st' e Hnew Hen Hmin Hmax Hrun He.
    rewrite (run_signature_open _ _ _ _ _ Hnew Hen Hmin Hmax).
    unfold evaluate, try_except, bind, lift, emit, ret.
    by rewrite Hrun, He.
  - intros plugins l1 m l3 mid e Hsort H1 Hm.
    unfold run. rewrite Hsort.
    apply snd_bind_Raise. by eapply run_modules_raises.
  - intros plugins results l1 s l3 sigs e Hres Hsigs H1 Hs.
    unfold run. rewrite (snd_bind_Ret _ _ _ Hres), Hsigs.
    apply snd_bind_Raise. by eapply run_signatures_raises.
Qed.

(** C2: for a signature that declares the minimum ["2.0"], a running
    version that, cut at its first dash, parses strictly lower makes the
    runner return nothing without calling [run], after the debug record of
    the older version when the signature is enabled.  With a running
    version that parses at least as high, the minimum check lets the
    signature through without a record: the runner does what it does for
    the same signature with no minimum, and for an enabled signature that
    passes the maximum check [run] is called and decides the result. *)
Theorem minimum_2_0_gate self s results st running :
  sg_new s results = Ret st ->
  sg_minimum s st = Some "2.0" ->
  StrictVersion_init (split_dash_head CUCKOO_VERSION) = Ret running ->
  (StrictVersion_cmp running (Parsed (2, 0, 0)%N None) = Ret Lt ->
   snd (_run_signature CUCKOO_VERSION self s results) = Ret None /\
   ran_signature (fst (_run_signature CUCKOO_VERSION self s results))
   = false /\
   (sg_enabled s st = true ->
    _run_signature CUCKOO_VERSION self s results
    = ([Log DEBUG (MsgRunning (sg_name s st));
        Log DEBUG (MsgOlder (sg_name s st) "2.0")],
       Ret None))) /\
  (forall c,
     StrictVersion_cmp running (Parsed (2, 0, 0)%N None) = Ret c ->
     c <> Lt ->
     minimum_gate (split_dash_head CUCKOO_VERSION) (sg_name s st)
       (sg_minimum s st)
     = ([], Ret false) /\
     _run_signature CUCKOO_VERSION self s results
     = _run_signature CUCKOO_VERSION self (without_minimum s) results /\
     (sg_enabled s st = true ->
      maximum_passes (split_dash_head CUCKOO_VERSION) (sg_maximum s st)
      = true ->
      ran_signature (fst (_run_signature CUCKOO_VERSION self s results))
      = true /\
      snd (_run_signature CUCKOO_VERSION self s results)
      = run_outcome s st)).
Proof.
  intros Hnew Hmin Hrunning.
  assert (forall c,
            StrictVersion_cmp running (Parsed (2, 0, 0)%N None) = Ret c ->
            version_lt (split_dash_head CUCKOO_VERSION) (split_dash_head "2.0")
            = Ret (is_Lt c)) as Hlt.
  { intros c Hc. unfold version_lt. rewrite Hrunning.
    change (split_dash_head "2.0") with "2.0".
    change (StrictVersion_init "2.0") with (Ret (Parsed (2, 0, 0)%N None)).
    cbv beta iota. by rewrite Hc. }
  split.
  - intros Hc.
    assert (sg_enabled s st = true ->
            _run_signature CUCKOO_VERSION self s results
            = ([Log DEBUG (MsgRunning (sg_name s st));
                Log DEBUG (MsgOlder (sg_name s st) "2.0")],
               Ret None)) as Hen.
    { intros Hen. rewrite (run_signature_instance _ _ _ _ _ Hnew).
      unfold emit. rewrite bind_Ret. rewrite Hen, Hmin.
      unfold minimum_gate. by rewrite (Hlt _ Hc). }
    destruct (sg_enabled s st) eqn:E.
    + by rewrite (Hen eq_refl).
    + rewrite (run_signature_instance _ _ _ _ _ Hnew).
      unfold emit. rewrite bind_Ret. by rewrite E.
  - intros c Hc Hne.
    assert (minimum_gate (split_dash_head CUCKOO_VERSION) (sg_name s st)
              (sg_minimum s st) = ([], Ret false)) as Hgate.
    { rewrite Hmin. unfold minimum_gate. rewrite (Hlt _ Hc).
      by destruct c. }
    split; [done|]. split.
    + rewrite (run_signature_instance _ _ _ _ _ Hnew).
      rewrite (run_signature_instance _ _ (without_minimum s) _ st Hnew).
      by rewrite Hgate.
    + intros Hen Hmax.
      rewrite (run_signature_instance _ _ _ _ _ Hnew).
      unfold emit. rewrite bind_Ret. rewrite Hen, Hgate.
      rewrite (maximum_gate_open _ _ _ Hmax). simpl.
      pose proof (evaluate_ran self s st) as Hran.
      pose proof (evaluate_outcome self s st) as Hout.
      by destruct (evaluate self s st).
Qed.

(** C9: a declared bound counts as the part in front of its first dash,
    whatever follows the dash.  For an enabled signature whose minimum and
    maximum, where declared, have a head without dash, and a running
    version that parses: [run] is called exactly when the running version
    is not lower than the head of the minimum and not higher than the head
    of the maximum, and then decides the result; otherwise the runner
    returns nothing. *)
Theorem bounds_are_normalised self s results st mn mx
    suffix_min suffix_max v p :
  sg_new s results = Ret st ->
  sg_enabled s st = true ->
  sg_minimum s st = (fun b => with_suffix b suffix_min) <$> mn ->
  sg_maximum s st = (fun b => with_suffix b suffix_max) <$> mx ->
  (forall b, mn = Some b -> b <> "" /\ no_dash b = true) ->
  (forall b, mx = Some b -> b <> "" /\ no_dash b = true) ->
  StrictVersion_init (split_dash_head CUCKOO_VERSION) = Ret (Parsed v p) ->
  let within := at_least (Parsed v p) mn && at_most (Parsed v p) mx in
  ran_signature (fst (_run_signature CUCKOO_VERSION self s results))
  = within /\
  snd (_run_signature CUCKOO_VERSION self s results)
  = if within then run_outcome s st else Ret None.
Proof.
  intros Hnew Hen Hmin Hmax Hmn Hmx Hv within. subst within.
  rewrite (run_signature_instance _ _ _ _ _ Hnew).
  unfold emit. rewrite bind_Ret. rewrite Hen, Hmin, Hmax.
  destruct (minimum_gate_at_least _ (sg_name s st) _ _ mn suffix_min Hv Hmn)
    as (t1 & -> & Ht1).
  destruct (maximum_gate_at_most _ (sg_name s st) _ _ mx suffix_max Hv Hmx)
    as (t2 & -> & Ht2).
  rewrite bind_Ret.
  destruct (at_least (Parsed v p) mn).
  - cbn [negb andb]. rewrite bind_Ret.
    destruct (at_most (Parsed v p) mx); cbn [negb].
    + pose proof (evaluate_ran self s st) as Hran.
      pose proof (evaluate_outcome self s st) as Hout.
      destruct (evaluate self s st) as [t o]. cbn [fst snd] in *.
      split; [|done].
      change (ran_signature (t1 ++ t2 ++ t) = true).
      by rewrite !ran_signature_app, Hran, !orb_true_r.
    + cbn [fst snd ret]. split; [|done].
      change (ran_signature (t1 ++ t2 ++ []) = false).
      by rewrite !ran_signature_app, Ht1, Ht2.
  - cbn [negb andb fst snd ret]. split; [|done].
    change (ran_signature (t1 ++ []) = false).
    by rewrite ran_signature_app, Ht1.
Qed.

End UnitFacts.

(** * The unit-by-unit properties on the sample plugins *)

Lemma run_failures_are_isolated_witness :
  (_run_processing config_ok sample_processor module_crashing
   = ([NewModule module_crashing; RunModule module_crashing;
       Log ERROR (MsgModuleFailed "Crashing")],
      Ret None) /\
   snd (run_modules config_ok sample_processor [module_crashing; module_b] ∅)
   = Ret {[ "b" := PyDict [("y", PyInt 2)] ]}) /\
  (_run_signature "0.5-dev" sample_processor signature_crashing ∅
   = ([Log DEBUG (MsgRunning "Crashing"); RunSignature "Crashing";
       Log ERROR (MsgSignatureFailed "Crashing")],
      Ret None) /\
   snd (run_signatures "0.5-dev" sample_processor
          [signature_crashing; signature_s1] ∅ [])
   = Ret [matched signature_s1 tt]) /\
  snd (_run_processing config_ok sample_processor module_broken)
  = Raise (OtherException "IOError") /\
  snd (_run_processing config_ok sample_processor module_unbound)
  = Raise (OtherException "OSError") /\
  snd (_run_processing config_broken sample_processor module_a)
  = Raise (OtherException "IOError") /\
  snd (_run_processing config_ok sample_processor module_interrupted)
  = Raise (NonException "KeyboardInterrupt") /\
  snd (_run_signature "0.5-dev" sample_processor signature_broken ∅)
  = Raise (OtherException "TypeError") /\
  snd (_run_signature "0.5-dev" sample_processor signature_interrupted ∅)
  = Raise (NonException "SystemExit") /\
  snd (run "0.5-dev" config_ok sample_processor
         {| processing := [module_a; module_b; module_broken];
            signatures := [signature_s1] |})
  = Raise (OtherException "IOError") /\
  snd (run "0.5-dev" config_ok sample_processor
         {| processing := [module_a];
            signatures := [signature_s1; signature_broken; signature_s2] |})
  = Raise (OtherException "TypeError").
Proof.
  destruct (run_failures_are_isolated "0.5-dev" config_ok sample_processor)
    as (Hmod & Hsig & Hnew & Hpath & _ & Hbase & Hsnew & Hsbase
        & Hrunm & Hruns).
  destruct (run_failures_are_isolated "0.5-dev" config_broken
              sample_processor)
    as (_ & _ & _ & _ & Hcfg & _).
  repeat apply conj.
  - exact (proj1 (Hmod module_crashing tt tt [] tt (OtherException "KeyError")
                    eq_refl eq_refl eq_refl eq_refl eq_refl eq_refl)).
  - rewrite (proj2 (Hmod module_crashing tt tt [] tt
                      (OtherException "KeyError")
                      eq_refl eq_refl eq_refl eq_refl eq_refl eq_refl)
               [module_b] ∅).
    by vm_compute.
  - exact (proj1 (Hsig signature_crashing ∅ tt tt (OtherException "KeyError")
                    eq_refl eq_refl eq_refl eq_refl eq_refl eq_refl)).
  - rewrite (proj2 (Hsig signature_crashing ∅ tt tt
                      (OtherException "KeyError")
                      eq_refl eq_refl eq_refl eq_refl eq_refl eq_refl)
               [signature_s1] []).
    reflexivity.
  - exact (Hnew module_broken _ eq_refl).
  - exact (Hpath module_unbound tt _ eq_refl eq_refl).
  - exact (Hcfg module_a tt tt _ eq_refl eq_refl eq_refl).
  - exact (Hbase module_interrupted tt tt [] tt _
             eq_refl eq_refl eq_refl eq_refl eq_refl eq_refl).
  - exact (Hsnew signature_broken ∅ _ eq_refl).
  - exact (Hsbase signature_interrupted ∅ tt tt _
             eq_refl eq_refl eq_refl eq_refl eq_refl eq_refl).
  - eapply (Hrunm _ [module_b] module_broken [module_a]).
    + reflexivity.
    + reflexivity.
    + exact (Hnew module_broken _ eq_refl).
  - eapply (Hruns _ _ [signature_s1] signature_broken [signature_s2]).
    + reflexivity.
    + reflexivity.
    + reflexivity.
    + exact (Hsnew signature_broken _ _ eq_refl).
Defined.

Lemma minimum_2_0_gate_witness :
  _run_signature "1.5-dev" sample_processor signature_min_2_0 ∅
  = ([Log DEBUG (MsgRunning "Min20"); Log DEBUG (MsgOlder "Min20" "2.0")],
     Ret None) /\
  minimum_gate "2.1" "Min20" (Some "2.0") = ([], Ret false) /\
  ran_signature
    (fst (_run_signature "2.1-rc1" sample_processor signature_min_2_0 ∅))
  = true /\
  snd (_run_signature "2.1-rc1" sample_processor signature_min_2_0 ∅)
  = Ret (Some (matched signature_min_2_0 tt)).
Proof.
  destruct (minimum_2_0_gate "1.5-dev" sample_processor signature_min_2_0 ∅
              tt (Parsed (1, 5, 0)%N None) eq_refl eq_refl eq_refl)
    as [Hlower _].
  destruct (minimum_2_0_gate "2.1-rc1" sample_processor signature_min_2_0 ∅
              tt (Parsed (2, 1, 0)%N None) eq_refl eq_refl eq_refl)
    as [_ Hhigher].
  destruct (Hlower eq_refl) as (_ & _ & Hskipped).
  destruct (Hhigher Gt eq_refl ltac:(discriminate))
    as (Hgate & _ & Hevaluated).
  destruct (Hevaluated eq_refl eq_refl) as [Hran Hout].
  split; [exact (Hskipped eq_refl)|].
  split; [exact Hgate|]. split; [exact Hran|exact Hout].
Defined.

(** Checks the side conditions on the head of a bound. *)
Ltac head_ok := intros b Hb; by simplify_eq.

Lemma bounds_are_normalised_witness :
  (ran_signature
     (fst (_run_signature "2.1" sample_processor signature_min_beta ∅))
   = true /\
   snd (_run_signature "2.1" sample_processor signature_min_beta ∅)
   = Ret (Some (matched signature_min_beta tt))) /\
  (ran_signature
     (fst (_run_signature "2.1-dev" sample_processor signature_min_alpha ∅))
   = true /\
   snd (_run_signature "2.1-dev" sample_processor signature_min_alpha ∅)
   = Ret (Some (matched signature_min_alpha tt))) /\
  (ran_signature
     (fst (_run_signature "1.5" sample_processor signature_min_beta ∅))
   = false /\
   snd (_run_signature "1.5" sample_processor signature_min_beta ∅)
   = Ret None) /\
  (ran_signature
     (fst (_run_signature "2.1" sample_processor signature_max_2_0 ∅))
   = false /\
   snd (_run_signature "2.1" sample_processor signature_max_2_0 ∅)
   = Ret None) /\
  (ran_signature
     (fst (_run_signature "2.1" sample_processor signature_max_plain ∅))
   = false /\
   snd (_run_signature "2.1" sample_processor signature_max_plain ∅)
   = Ret None) /\
  (ran_signature
     (fst (_run_signature "1.9-dev" sample_processor signature_max_2_0 ∅))
   = true /\
   snd (_run_signature "1.9-dev" sample_processor signature_max_2_0 ∅)
   = Ret (Some (matched signature_max_2_0 tt))) /\
  (ran_signature
     (fst (_run_signature "2.1-dev" sample_processor signature_beta ∅))
   = true /\
   snd (_run_signature "2.1-dev" sample_processor signature_beta ∅)
   = Ret (Some (matched signature_beta tt))).
Proof.
  repeat apply conj.
  1, 2: apply (bounds_are_normalised "2.1" sample_processor signature_min_beta
                 ∅ tt (Some "2.0") None (Some "beta") None (2, 1, 0)%N None);
    try reflexivity; head_ok.
  1, 2: apply (bounds_are_normalised "2.1-dev" sample_processor
                 signature_min_alpha ∅ tt (Some "2.0") None (Some "alpha-2")
                 None (2, 1, 0)%N None);
    try reflexivity; head_ok.
  1, 2: apply (bounds_are_normalised "1.5" sample_processor signature_min_beta
                 ∅ tt (Some "2.0") None (Some "beta") None (1, 5, 0)%N None);
    try reflexivity; head_ok.
  1, 2: apply (bounds_are_normalised "2.1" sample_processor signature_max_2_0
                 ∅ tt None (Some "2.0") None (Some "final") (2, 1, 0)%N None);
    try reflexivity; head_ok.
  1, 2: apply (bounds_are_normalised "2.1" sample_processor
                 signature_max_plain ∅ tt None (Some "2.0") None None
                 (2, 1, 0)%N None);
    try reflexivity; head_ok.
  1, 2: apply (bounds_are_normalised "1.9-dev" sample_processor
                 signature_max_2_0 ∅ tt None (Some "2.0") None (Some "final")
                 (1, 9, 0)%N None);
    try reflexivity; head_ok.
  1, 2: apply (bounds_are_normalised "2.1-dev" sample_processor signature_beta
                 ∅ tt (Some "2.0") (Some "3.0") (Some "beta") (Some "rc1")
                 (2, 1, 0)%N None);
    try reflexivity; head_ok.
Defined.
